(** * The administrative console of OtchotBot (src/admin.py)

    A shallow embedding of the role registry, the conversational sessions
    (aiogram's [FSMContext]), the step handlers of the administrative flows
    and the broadcast loop, followed by the properties established for them.

    Conventions.
    - Telegram identifiers are Python [int]s: [Z].
    - A message text is a Python [str]; it is embedded as a [string] whose
      characters are read as the code points below 256.  The character
      classes used by the source ([str.strip], [\d], [int]) are written out
      for that range.
    - [ADDITIONAL_ADMINS] and [APPROVERS] are Python sets: [gset Z].
    - The [data] dictionary of a session is a [gmap string value].
    - [config.py], [database.py], [keyboards.py] and the Google Sheets client
      are not part of the sources at hand: [ADMIN_ID] and [HELPER_ID] are
      section variables and the storage functions are the operations of the
      class [Collaborators]. *)

From Stdlib Require Import ZArith QArith String Ascii List Lia.
From stdpp Require Import base decidable option numbers gmap sets list strings.

#[local] Open Scope string_scope.
#[local] Open Scope Z_scope.

(** ** Role registry: module-level state of admin.py, lines 78-132 *)

Record Roles := mkRoles {
  ADDITIONAL_ADMINS : gset Z;
  APPROVERS : gset Z
}.

(** [ADDITIONAL_ADMINS: Set[int] = set()], [APPROVERS: Set[int] = set()]. *)
Definition initial_roles : Roles := mkRoles ∅ ∅.

Section RoleRegistry.
Variables ADMIN_ID HELPER_ID : Z.

Definition is_admin (r : Roles) (user_id : Z) : bool :=
  (user_id =? ADMIN_ID) || bool_decide (user_id ∈ ADDITIONAL_ADMINS r).

Definition is_approver (r : Roles) (user_id : Z) : bool :=
  (user_id =? HELPER_ID) || bool_decide (user_id ∈ APPROVERS r)
  || is_admin r user_id.

Definition can_approve_reports (r : Roles) (user_id : Z) : bool :=
  is_admin r user_id || is_approver r user_id.

Definition add_admin (user_id : Z) (r : Roles) : bool * Roles :=
  if bool_decide (user_id ∉ ADDITIONAL_ADMINS r) && negb (user_id =? ADMIN_ID)
  then (true, mkRoles ({[user_id]} ∪ ADDITIONAL_ADMINS r) (APPROVERS r))
  else (false, r).

Definition remove_admin (user_id : Z) (r : Roles) : bool * Roles :=
  if bool_decide (user_id ∈ ADDITIONAL_ADMINS r)
  then (true, mkRoles (ADDITIONAL_ADMINS r ∖ {[user_id]}) (APPROVERS r))
  else (false, r).

Definition add_approver (user_id : Z) (r : Roles) : bool * Roles :=
  if bool_decide (user_id ∉ APPROVERS r) && negb (user_id =? HELPER_ID)
     && negb (is_admin r user_id)
  then (true, mkRoles (ADDITIONAL_ADMINS r) ({[user_id]} ∪ APPROVERS r))
  else (false, r).

Definition remove_approver (user_id : Z) (r : Roles) : bool * Roles :=
  if bool_decide (user_id ∈ APPROVERS r)
  then (true, mkRoles (ADDITIONAL_ADMINS r) (APPROVERS r ∖ {[user_id]}))
  else (false, r).

(** The four mutators as commands; the states reachable from the initial
    configuration are the [run_ops ops initial_roles]. *)
Inductive RoleOp :=
| AddAdmin (user_id : Z)
| RemoveAdmin (user_id : Z)
| AddApprover (user_id : Z)
| RemoveApprover (user_id : Z).

Definition run_op (op : RoleOp) (r : Roles) : bool * Roles :=
  match op with
  | AddAdmin u => add_admin u r
  | RemoveAdmin u => remove_admin u r
  | AddApprover u => add_approver u r
  | RemoveApprover u => remove_approver u r
  end.

Definition run_ops (ops : list RoleOp) (r : Roles) : Roles :=
  fold_left (fun acc op => snd (run_op op acc)) ops r.

End RoleRegistry.

(** ** Python text primitives used by the handlers *)

Definition code (c : ascii) : Z := Z.of_N (N_of_ascii c).

(** [str.isspace] on the code points below 256: TAB..CR, FS..US, space,
    NEL and NBSP. *)
Definition is_space (c : ascii) : bool :=
  let n := code c in
  ((9 <=? n) && (n <=? 13)) || ((28 <=? n) && (n <=? 32))
  || (n =? 133) || (n =? 160).

(** The class [\d] (and the digits [int] accepts) below 256: [0-9]. *)
Definition digit_val (c : ascii) : option Z :=
  let n := code c in
  if (48 <=? n) && (n <=? 57) then Some (n - 48) else None.

Definition is_digit (c : ascii) : bool :=
  match digit_val c with Some _ => true | None => false end.

Definition is_empty (s : string) : bool :=
  match s with EmptyString => true | String _ _ => false end.

Fixpoint lstrip (s : string) : string :=
  match s with
  | EmptyString => EmptyString
  | String c t => if is_space c then lstrip t else s
  end.

Fixpoint rstrip (s : string) : string :=
  match s with
  | EmptyString => EmptyString
  | String c t =>
      match rstrip t with
      | EmptyString => if is_space c then EmptyString else String c EmptyString
      | t' => String c t'
      end
  end.

(** [s.strip()] *)
Definition strip (s : string) : string := rstrip (lstrip s).

(** [len(s)] *)
Definition len (s : string) : Z := Z.of_nat (String.length s).

(** [int(s)] for a [str]: surrounding whitespace is dropped, then an
    optional sign and the grammar [digit (["_"] digit)*]; [None] stands for
    [ValueError]. *)
Fixpoint int_digits (s : string) (acc : Z) : option Z :=
  match s with
  | EmptyString => Some acc
  | String c t =>
      match digit_val c with
      | Some d => int_digits t (acc * 10 + d)
      | None =>
          if Ascii.eqb c "_" then
            match t with
            | String c' t' =>
                match digit_val c' with
                | Some d => int_digits t' (acc * 10 + d)
                | None => None
                end
            | EmptyString => None
            end
          else None
      end
  end.

Definition int_unsigned (s : string) : option Z :=
  match s with
  | String c t =>
      match digit_val c with
      | Some d => int_digits t d
      | None => None
      end
  | EmptyString => None
  end.

Definition py_int (s : string) : option Z :=
  match strip s with
  | String c t =>
      if Ascii.eqb c "-" then Z.opp <$> int_unsigned t
      else if Ascii.eqb c "+" then int_unsigned t
      else int_unsigned (String c t)
  | EmptyString => None
  end.

(** [s.startswith(p)], returning the remainder. *)
Fixpoint strip_prefix (p s : string) : option string :=
  match p, s with
  | EmptyString, _ => Some s
  | String a p', String b s' => if Ascii.eqb a b then strip_prefix p' s' else None
  | String _ _, EmptyString => None
  end.

(** The longest leading run of characters of a class, and what follows. *)
Fixpoint span (f : ascii -> bool) (s : string) : string * string :=
  match s with
  | String c t =>
      if f c then let '(run, rest) := span f t in (String c run, rest)
      else (EmptyString, s)
  | EmptyString => (EmptyString, EmptyString)
  end.

(** [re.match(r"https://t\.me/c/(\d+)/(\d+)", link)], returning the two
    groups.  The greedy [\d+] is followed by a character that is no digit,
    so only its longest run can match. *)
Definition match_channel_topic (link : string) : option (string * string) :=
  match strip_prefix "https://t.me/c/" link with
  | Some rest =>
      let '(g1, rest1) := span is_digit rest in
      if is_empty g1 then None
      else match rest1 with
           | String c rest2 =>
               if Ascii.eqb c "/" then
                 let '(g2, _) := span is_digit rest2 in
                 if is_empty g2 then None else Some (g1, g2)
               else None
           | EmptyString => None
           end
  | None => None
  end.

(** [re.match(r"https://t\.me/c/(\d+)", link)] *)
Definition match_channel_no_topic (link : string) : option string :=
  match strip_prefix "https://t.me/c/" link with
  | Some rest =>
      let '(g1, _) := span is_digit rest in
      if is_empty g1 then None else Some g1
  | None => None
  end.

(** [re.match(r"^-?\d+$", link)]; [$] also matches before a final newline. *)
Definition match_numeric_id (link : string) : bool :=
  let body :=
    match link with
    | String c t => if Ascii.eqb c "-" then t else link
    | EmptyString => link
    end in
  let '(ds, rest) := span is_digit body in
  negb (is_empty ds)
  && (is_empty rest || String.eqb rest (String "010" EmptyString)).

Definition is_id_char (c : ascii) : bool :=
  let n := code c in
  ((97 <=? n) && (n <=? 122)) || ((65 <=? n) && (n <=? 90))
  || ((48 <=? n) && (n <=? 57)) || (n =? 95) || (n =? 45).

Definition sheet_url_here (s : string) : option string :=
  match strip_prefix "https://docs.google.com/spreadsheets/d/" s with
  | Some rest =>
      let '(g, _) := span is_id_char rest in
      if is_empty g then None else Some g
  | None => None
  end.

(** [re.search(r"https://docs\.google\.com/spreadsheets/d/([a-zA-Z0-9_-]+)", url)]:
    the leftmost position where the pattern matches, returning the group. *)
Fixpoint search_sheet_url (s : string) : option string :=
  match sheet_url_here s with
  | Some g => Some g
  | None =>
      match s with
      | String _ t => search_sheet_url t
      | EmptyString => None
      end
  end.

Fixpoint has_underscore (s : string) : bool :=
  match s with
  | EmptyString => false
  | String c t => Ascii.eqb c "_" || has_underscore t
  end.

(** [s.split("_")[-1]] *)
Fixpoint last_segment (s : string) : string :=
  match s with
  | EmptyString => EmptyString
  | String c t =>
      if has_underscore t then last_segment t
      else if Ascii.eqb c "_" then t else s
  end.

(** ** Sessions: aiogram's FSMContext *)

(** [class AdminStates(StatesGroup)], admin.py lines 45-76. *)
Inductive AdminStates :=
| waiting_for_group_link
| waiting_for_group_name
| waiting_for_group_sheet_selection
| waiting_for_group_id_to_delete
| waiting_for_sheet_name
| waiting_for_google_sheet_url
| waiting_for_google_sheet_worksheet_name
| waiting_for_new_password
| waiting_for_password_confirmation
| waiting_for_new_admin_id
| waiting_for_admin_name
| waiting_for_admin_delete_confirmation
| waiting_for_new_approver_id
| waiting_for_approver_name
| waiting_for_approver_delete_confirmation
| waiting_for_user_search
| waiting_for_broadcast_message
| waiting_for_broadcast_confirmation.

(** [class RegistrationStates(StatesGroup)], bot.py lines 29-32. *)
Inductive RegistrationStates :=
| waiting_for_password
| waiting_for_full_name
| waiting_for_group_selection.

Inductive StateName :=
| Admin (s : AdminStates)
| Registration (s : RegistrationStates).

(** The Python values a handler keeps in the session dictionary. *)
Inductive value :=
| VNone
| VInt (z : Z)
| VStr (s : string).

#[global] Instance AdminStates_eq_dec : EqDecision AdminStates.
Proof. solve_decision. Defined.
#[global] Instance RegistrationStates_eq_dec : EqDecision RegistrationStates.
Proof. solve_decision. Defined.
#[global] Instance StateName_eq_dec : EqDecision StateName.
Proof. solve_decision. Defined.
#[global] Instance value_eq_dec : EqDecision value.
Proof. solve_decision. Defined.

(** Truth value of an object ([if not x]). *)
Definition truthy (v : value) : bool :=
  match v with
  | VNone => false
  | VInt z => negb (z =? 0)
  | VStr s => negb (is_empty s)
  end.

(** The operator's conversation context: current step and accumulated
    fields. *)
Record FSMContext := mkFSM {
  fsm_state : option StateName;
  fsm_data : gmap string value
}.

(** [data.get(key)] *)
Definition data_get (key : string) (d : gmap string value) : value :=
  default VNone (d !! key).

(** ** Rows handed over by the storage collaborator *)

Record UserRow := mkUser {
  u_user_id : Z;
  u_telegram_id : Z;
  u_full_name : string;
  u_reg_date : string;
  u_is_blocked : bool;
  u_group_name : string
}.

Record SheetRow := mkSheet {
  s_sheet_id : Z;
  s_sheet_name : string;
  s_spreadsheet_id : string;
  s_worksheet_name : string;
  s_is_active : bool
}.

Record GroupRow := mkGroup {
  g_db_id : Z;
  g_group_id : Z;
  g_group_name : string;
  g_topic_id : value;
  g_google_sheet_id : value;
  g_sheet_name : string
}.

(** Modelled from the spec: [database.py] and [google_sheets_integration.py]
    are missing.  The functions the modelled handlers import from them are
    the operations of this class, over an abstract state [W] of the outside
    world; a write returns the flag the source tests together with the new
    state, and [get_worksheet] may raise ([None]).  The one law,
    [update_password_stored], is the contract of the spec's
    [Store.setAccessCode]/[Store.getAccessCode]: after a write that reports
    success the stored code is the one written. *)
Class Collaborators (W : Type) := {
  get_all_users : W -> list UserRow;
  get_all_google_sheets : W -> list SheetRow;
  get_google_sheet_by_id : Z -> W -> option SheetRow;
  get_all_telegram_groups : W -> list GroupRow;
  get_telegram_group_by_id : Z -> W -> option GroupRow;
  add_telegram_group : value -> value -> value -> Z -> W -> bool * W;
  delete_telegram_group : Z -> W -> bool * W;
  add_google_sheet : value -> value -> string -> W -> bool * W;
  get_worksheet : value -> string -> W -> option bool;
  get_current_password : W -> string;
  update_password : value -> W -> bool * W;
  update_password_stored : forall p w w',
    update_password (VStr p) w = (true, w') -> get_current_password w' = p
}.

(** ** What a handler shows to the operator *)

(** The reasons for which a step re-prompts. *)
Inductive Rejection :=
| NotNumeric
| IsPrimaryApprover
| IsAdministrator
| AlreadyApprover
| NoSuchApprover
| CannotRemovePrimaryApprover
| BadLink
| NameTooShort
| NoSuchGroup
| BadSheetUrl
| EmptyWorksheetName
| IsPrimaryAdmin
| AlreadyAdmin
| CannotRemovePrimaryAdmin
| NoSuchAdmin
| PasswordTooShort
| PasswordUnchanged
| PasswordMismatch
| MessageTooShort
| SheetNotFound.

Inductive Msg :=
| NoPermission                          (* "Ruxsat yo'q." *)
| PrimaryOnly                           (* "Faqat asosiy admin ..." *)
| Error (why : Rejection)               (* "XATO" text of a failed validation *)
| NoSheetsYet                           (* "Hozircha Google Sheets mavjud emas" *)
| NothingToRemove                       (* "O'chiriladigan ... yo'q!" *)
| MessageNotFound                       (* "Xabar topilmadi!" *)
| Prompt (step : AdminStates)           (* the text asking for the next input *)
| Outcome (ok : bool)                   (* "MUVAFFAQIYAT" or "XATO" after a commit *)
| ConnectionError                       (* "ULANISH XATOSI" / "Ulanishda xatolik" *)
| Listing                               (* the refreshed list with its keyboard *)
| Panel                                 (* the admin panel *)
| Cancelled                             (* "BEKOR QILINDI" *)
| BackToPanelHint                       (* "Admin panelga qaytish uchun /rava ..." *)
| ConfirmBroadcast (text : string) (user_count : Z)
| Sending (total sent errors : Z)       (* "XABAR YUBORILMOQDA..." *)
| Finished (total sent errors : Z) (rate : Q).
    (* "XABAR YUBORISH YAKUNLANDI"; [rate] is (sent / total) * 100 as an
       exact fraction, the rounding to one decimal for display is left out *)

Inductive Out :=
| Answer (m : Msg)                      (* message.answer(...) *)
| Alert (m : Msg)                       (* callback_query.answer(..., show_alert=True) *)
| EditText (m : Msg)                    (* callback_query.message.edit_text(...) *)
| Present (m : Msg)                     (* edit_text, or answer on TelegramBadRequest *)
| Ack                                   (* callback_query.answer() *)
| SendMessage (chat_id : Z) (text : value). (* bot.send_message(chat_id, "ADMIN XABARI" + text) *)

Inductive Exn :=
| ValueError
| AttributeError
| ZeroDivisionError
| TelegramError
| IllTyped.   (* the call would leave the annotated types; the model stops *)

Inductive res (A : Type) :=
| Ok (a : A)
| Raise (e : Exn).
Arguments Ok {A} a.
Arguments Raise {A} e.

(** ** The handler monad

    A handler runs against the sender's session, the module-level role sets
    and the outside world; it may raise, and it records what it sends.
    State changes made before an exception stay. *)

Record Ctx (W : Type) := mkCtx {
  fsm : FSMContext;
  roles : Roles;
  world : W
}.
Arguments mkCtx {W} fsm roles world.
Arguments fsm {W} c.
Arguments roles {W} c.
Arguments world {W} c.

Definition Handler (W A : Type) : Type := Ctx W -> res A * Ctx W * list Out.

#[global] Instance handler_ret {W} : MRet (Handler W) :=
  fun A a c => (Ok a, c, []).

#[global] Instance handler_bind {W} : MBind (Handler W) :=
  fun A B k m c =>
    match m c with
    | (Ok a, c', o) => let '(r, c'', o') := k a c' in (r, c'', (o ++ o')%list)
    | (Raise e, c', o) => (Raise e, c', o)
    end.

Section Primitives.
Context {W : Type}.

Definition raise {A} (e : Exn) : Handler W A := fun c => (Raise e, c, []).

(** [try: m except: ...] as a value: the body's result is handed back. *)
Definition attempt {A} (m : Handler W A) : Handler W (res A) :=
  fun c => let '(r, c', o) := m c in (Ok r, c', o).

Definition emit (o : Out) : Handler W unit := fun c => (Ok tt, c, [o]).

(** [await state.clear()] *)
Definition state_clear : Handler W unit :=
  fun c => (Ok tt, mkCtx (mkFSM None ∅) (roles c) (world c), []).

(** [await state.set_state(AdminStates.s)] *)
Definition set_state (s : AdminStates) : Handler W unit :=
  fun c => (Ok tt, mkCtx (mkFSM (Some (Admin s)) (fsm_data (fsm c))) (roles c) (world c), []).

(** [await state.update_data(key=v)] *)
Definition update_data (key : string) (v : value) : Handler W unit :=
  fun c => (Ok tt, mkCtx (mkFSM (fsm_state (fsm c)) (<[key := v]> (fsm_data (fsm c))))
                         (roles c) (world c), []).

(** [await state.get_data()] *)
Definition get_data : Handler W (gmap string value) :=
  fun c => (Ok (fsm_data (fsm c)), c, []).

(** Reading the module-level role sets. *)
Definition read_roles {A} (f : Roles -> A) : Handler W A :=
  fun c => (Ok (f (roles c)), c, []).

(** Calling one of the registry mutators. *)
Definition call_roles (f : Roles -> bool * Roles) : Handler W bool :=
  fun c => let '(b, r') := f (roles c) in (Ok b, mkCtx (fsm c) r' (world c), []).

(** Awaiting a read of the outside world. *)
Definition query {A} (f : W -> A) : Handler W A :=
  fun c => (Ok (f (world c)), c, []).

(** Awaiting a write to the outside world. *)
Definition command (f : W -> bool * W) : Handler W bool :=
  fun c => let '(b, w') := f (world c) in (Ok b, mkCtx (fsm c) (roles c) w', []).

(** [message.text.strip()]; a message without text has [text = None]. *)
Definition text_strip (text : option string) : Handler W string :=
  match text with
  | Some t => mret (strip t)
  | None => raise AttributeError
  end.

(** [a / b] on ints. *)
Definition py_truediv (a b : Z) : Handler W Q :=
  if b =? 0 then raise ZeroDivisionError
  else mret (Qmake a (Z.to_pos b)).

End Primitives.

(** The transport's behaviour during one broadcast: whether the [i]-th call
    of [bot.send_message] returns normally, and whether the progress edit
    attempted while handling the [i]-th recipient does.  Calls to the
    operator's chat that the source leaves unguarded are taken to return
    normally. *)
Record Bot := mkBot {
  delivers : nat -> bool;
  progress_shown : nat -> bool
}.

(** ** The handlers of admin.py *)

Section Handlers.
Context {W : Type} `{!Collaborators W}.
Variables ADMIN_ID HELPER_ID : Z.

(** An error text re-sent with the cancel keyboard. *)
Definition reject (why : Rejection) : Handler W unit :=
  emit (Answer (Error why)).

(** [int(s)] where the source does not catch [ValueError]. *)
Definition int_of (s : string) : Handler W Z :=
  match py_int s with
  | Some z => mret z
  | None => raise ValueError
  end.

Definition sender_is_admin (from_user : Z) : Handler W bool :=
  read_roles (fun r => is_admin ADMIN_ID r from_user).

(** lines 496-516 *)
Definition handle_admin_command (from_user : Z) : Handler W unit :=
  adm ← sender_is_admin from_user;
  if negb adm then emit (Answer NoPermission)
  else state_clear;; emit (Answer Panel).

(** *** Approvers, lines 765-990 *)

Definition add_approver_start (from_user : Z) : Handler W unit :=
  adm ← sender_is_admin from_user;
  if negb adm then emit (Alert NoPermission)
  else
    set_state waiting_for_new_approver_id;;
    emit (Present (Prompt waiting_for_new_approver_id));;
    emit Ack.

Definition process_new_approver_id (from_user : Z) (text : option string)
  : Handler W unit :=
  adm ← sender_is_admin from_user;
  if negb adm then emit (Answer NoPermission);; state_clear
  else
    t ← text_strip text;
    match py_int t with
    | None => reject NotNumeric
    | Some new_approver_id =>
        if new_approver_id =? HELPER_ID then reject IsPrimaryApprover
        else
          is_adm ← read_roles (fun r => is_admin ADMIN_ID r new_approver_id);
          if (is_adm : bool) then reject IsAdministrator
          else
            known ← read_roles (fun r => bool_decide (new_approver_id ∈ APPROVERS r));
            if (known : bool) then reject AlreadyApprover
            else
              update_data "new_approver_id" (VInt new_approver_id);;
              set_state waiting_for_approver_name;;
              emit (Answer (Prompt waiting_for_approver_name))
    end.

Definition process_approver_name (from_user : Z) (text : option string)
  : Handler W unit :=
  adm ← sender_is_admin from_user;
  if negb adm then emit (Answer NoPermission);; state_clear
  else
    approver_name ← text_strip text;
    if is_empty approver_name || (len approver_name <? 2) then reject NameTooShort
    else
      data ← get_data;
      match data_get "new_approver_id" data with
      | VInt new_approver_id =>
          success ← call_roles (add_approver ADMIN_ID HELPER_ID new_approver_id);
          state_clear;;
          emit (Answer (Outcome success));;
          emit (Answer Listing)
      | _ => raise IllTyped
      end.

Definition remove_approver_start (from_user : Z) : Handler W unit :=
  adm ← sender_is_admin from_user;
  if negb adm then emit (Alert NoPermission)
  else
    none ← read_roles (fun r => bool_decide (APPROVERS r = ∅));
    if (none : bool) then emit (Alert NothingToRemove)
    else
      set_state waiting_for_approver_delete_confirmation;;
      emit (Present (Prompt waiting_for_approver_delete_confirmation));;
      emit Ack.

Definition process_approver_delete (from_user : Z) (text : option string)
  : Handler W unit :=
  adm ← sender_is_admin from_user;
  if negb adm then emit (Answer NoPermission);; state_clear
  else
    t ← text_strip text;
    match py_int t with
    | None => reject NotNumeric
    | Some approver_id_to_remove =>
        if approver_id_to_remove =? HELPER_ID then reject CannotRemovePrimaryApprover
        else
          known ← read_roles (fun r => bool_decide (approver_id_to_remove ∈ APPROVERS r));
          if negb known then reject NoSuchApprover
          else
            success ← call_roles (remove_approver approver_id_to_remove);
            state_clear;;
            emit (Answer (Outcome success));;
            emit (Answer Listing)
    end.

(** *** Work groups, lines 1052-1297 *)

Definition add_group_start (from_user : Z) : Handler W unit :=
  adm ← sender_is_admin from_user;
  if negb adm then emit (Alert NoPermission)
  else
    set_state waiting_for_group_link;;
    emit (Present (Prompt waiting_for_group_link));;
    emit Ack.

(** The tail of [process_group_link], lines 1116-1127: [if group_id:]. *)
Definition accept_group (group_id : Z) (topic_id : value) : Handler W unit :=
  if negb (group_id =? 0) then
    update_data "temp_group_id" (VInt group_id);;
    update_data "temp_topic_id" topic_id;;
    set_state waiting_for_group_name;;
    emit (Answer (Prompt waiting_for_group_name))
  else mret tt.

Definition process_group_link (from_user : Z) (text : option string)
  : Handler W unit :=
  adm ← sender_is_admin from_user;
  if negb adm then emit (Answer NoPermission);; state_clear
  else
    link ← text_strip text;
    match match_channel_topic link with
    | Some (g1, g2) =>
        group_id ← int_of ("-100" +:+ g1);
        topic_id ← int_of g2;
        accept_group group_id (VInt topic_id)
    | None =>
        match match_channel_no_topic link with
        | Some g1 =>
            group_id ← int_of ("-100" +:+ g1);
            accept_group group_id VNone
        | None =>
            if match_numeric_id link then
              group_id ← int_of link;
              accept_group group_id VNone
            else reject BadLink
        end
    end.

Definition process_group_name (from_user : Z) (text : option string)
  : Handler W unit :=
  adm ← sender_is_admin from_user;
  if negb adm then emit (Answer NoPermission);; state_clear
  else
    group_name ← text_strip text;
    if is_empty group_name || (len group_name <? 3) then reject NameTooShort
    else
      update_data "temp_group_name" (VStr group_name);;
      sheets ← query get_all_google_sheets;
      match sheets with
      | [] => emit (Answer NoSheetsYet)
      | _ :: _ =>
          set_state waiting_for_group_sheet_selection;;
          emit (Answer (Prompt waiting_for_group_sheet_selection))
      end.

Definition process_group_sheet_selection (from_user : Z) (callback_data : string)
  : Handler W unit :=
  adm ← sender_is_admin from_user;
  if negb adm then emit (Alert NoPermission)
  else
    sheet_id ← int_of (last_segment callback_data);
    data ← get_data;
    let group_id := data_get "temp_group_id" data in
    let topic_id := data_get "temp_topic_id" data in
    let group_name := data_get "temp_group_name" data in
    sheet_info ← query (get_google_sheet_by_id sheet_id);
    match sheet_info with
    | None => emit (Alert (Error SheetNotFound))
    | Some _ =>
        success ← command (add_telegram_group group_id group_name topic_id sheet_id);
        state_clear;;
        emit (EditText (Outcome success));;
        emit (Answer Listing);;
        emit Ack
    end.

Definition delete_group_start (from_user : Z) : Handler W unit :=
  adm ← sender_is_admin from_user;
  if negb adm then emit (Alert NoPermission)
  else
    groups ← query get_all_telegram_groups;
    match groups with
    | [] => emit (Alert NothingToRemove)
    | _ :: _ =>
        set_state waiting_for_group_id_to_delete;;
        emit (Present (Prompt waiting_for_group_id_to_delete));;
        emit Ack
    end.

Definition process_group_delete (from_user : Z) (text : option string)
  : Handler W unit :=
  adm ← sender_is_admin from_user;
  if negb adm then emit (Answer NoPermission);; state_clear
  else
    t ← text_strip text;
    match py_int t with
    | None => reject NotNumeric
    | Some group_id =>
        group_info ← query (get_telegram_group_by_id group_id);
        match group_info with
        | None => reject NoSuchGroup
        | Some _ =>
            success ← command (delete_telegram_group group_id);
            state_clear;;
            emit (Answer (Outcome success));;
            emit (Answer Listing)
        end
    end.

(** *** Spreadsheet targets, lines 1342-1495 *)

Definition add_sheet_start (from_user : Z) : Handler W unit :=
  adm ← sender_is_admin from_user;
  if negb adm then emit (Alert NoPermission)
  else
    set_state waiting_for_sheet_name;;
    emit (Present (Prompt waiting_for_sheet_name));;
    emit Ack.

Definition process_sheet_name (from_user : Z) (text : option string)
  : Handler W unit :=
  adm ← sender_is_admin from_user;
  if negb adm then emit (Answer NoPermission);; state_clear
  else
    sheet_name ← text_strip text;
    if is_empty sheet_name || (len sheet_name <? 3) then reject NameTooShort
    else
      update_data "temp_sheet_name" (VStr sheet_name);;
      set_state waiting_for_google_sheet_url;;
      emit (Answer (Prompt waiting_for_google_sheet_url)).

Definition process_google_sheet_url (from_user : Z) (text : option string)
  : Handler W unit :=
  adm ← sender_is_admin from_user;
  if negb adm then emit (Answer NoPermission);; state_clear
  else
    url ← text_strip text;
    match search_sheet_url url with
    | Some spreadsheet_id =>
        update_data "temp_spreadsheet_id" (VStr spreadsheet_id);;
        set_state waiting_for_google_sheet_worksheet_name;;
        emit (Answer (Prompt waiting_for_google_sheet_worksheet_name))
    | None => reject BadSheetUrl
    end.

Definition process_google_sheet_worksheet_name (from_user : Z) (text : option string)
  : Handler W unit :=
  adm ← sender_is_admin from_user;
  if negb adm then emit (Answer NoPermission);; state_clear
  else
    worksheet_name ← text_strip text;
    if is_empty worksheet_name then reject EmptyWorksheetName
    else
      data ← get_data;
      let sheet_name := data_get "temp_sheet_name" data in
      let spreadsheet_id := data_get "temp_spreadsheet_id" data in
      worksheet ← query (get_worksheet spreadsheet_id worksheet_name);
      shown ← match worksheet with
              | Some true =>
                  success ← command (add_google_sheet sheet_name spreadsheet_id worksheet_name);
                  mret (Outcome success)
              | Some false => mret ConnectionError
              | None => mret ConnectionError
              end;
      state_clear;;
      emit (Answer shown);;
      emit (Answer Listing).

(** *** Administrators, lines 1697-1911: primary administrator only *)

Definition add_admin_start (from_user : Z) : Handler W unit :=
  if negb (from_user =? ADMIN_ID) then emit (Alert PrimaryOnly)
  else
    set_state waiting_for_new_admin_id;;
    emit (Present (Prompt waiting_for_new_admin_id));;
    emit Ack.

Definition process_new_admin_id (from_user : Z) (text : option string)
  : Handler W unit :=
  if negb (from_user =? ADMIN_ID) then emit (Answer NoPermission);; state_clear
  else
    t ← text_strip text;
    match py_int t with
    | None => reject NotNumeric
    | Some new_admin_id =>
        if new_admin_id =? ADMIN_ID then reject IsPrimaryAdmin
        else
          known ← read_roles (fun r => bool_decide (new_admin_id ∈ ADDITIONAL_ADMINS r));
          if (known : bool) then reject AlreadyAdmin
          else
            update_data "new_admin_id" (VInt new_admin_id);;
            set_state waiting_for_admin_name;;
            emit (Answer (Prompt waiting_for_admin_name))
    end.

Definition process_admin_name (from_user : Z) (text : option string)
  : Handler W unit :=
  if negb (from_user =? ADMIN_ID) then emit (Answer NoPermission);; state_clear
  else
    admin_name ← text_strip text;
    if is_empty admin_name || (len admin_name <? 2) then reject NameTooShort
    else
      data ← get_data;
      match data_get "new_admin_id" data with
      | VInt new_admin_id =>
          success ← call_roles (add_admin ADMIN_ID new_admin_id);
          state_clear;;
          emit (Answer (Outcome success));;
          emit (Answer Listing)
      | _ => raise IllTyped
      end.

Definition remove_admin_start (from_user : Z) : Handler W unit :=
  if negb (from_user =? ADMIN_ID) then emit (Alert PrimaryOnly)
  else
    none ← read_roles (fun r => bool_decide (ADDITIONAL_ADMINS r = ∅));
    if (none : bool) then emit (Alert NothingToRemove)
    else
      set_state waiting_for_admin_delete_confirmation;;
      emit (Present (Prompt waiting_for_admin_delete_confirmation));;
      emit Ack.

Definition process_admin_delete (from_user : Z) (text : option string)
  : Handler W unit :=
  if negb (from_user =? ADMIN_ID) then emit (Answer NoPermission);; state_clear
  else
    t ← text_strip text;
    match py_int t with
    | None => reject NotNumeric
    | Some admin_id_to_remove =>
        if admin_id_to_remove =? ADMIN_ID then reject CannotRemovePrimaryAdmin
        else
          known ← read_roles (fun r => bool_decide (admin_id_to_remove ∈ ADDITIONAL_ADMINS r));
          if negb known then reject NoSuchAdmin
          else
            success ← call_roles (remove_admin admin_id_to_remove);
            state_clear;;
            emit (Answer (Outcome success));;
            emit (Answer Listing)
    end.

(** *** Access code, lines 1976-2082 *)

Definition start_password_change (from_user : Z) : Handler W unit :=
  adm ← sender_is_admin from_user;
  if negb adm then emit (Alert NoPermission)
  else
    set_state waiting_for_new_password;;
    emit (Present (Prompt waiting_for_new_password));;
    emit Ack.

Definition process_new_password (from_user : Z) (text : option string)
  : Handler W unit :=
  adm ← sender_is_admin from_user;
  if negb adm then emit (Answer NoPermission);; state_clear
  else
    new_password ← text_strip text;
    if is_empty new_password || (len new_password <? 4) then reject PasswordTooShort
    else
      current_password ← query get_current_password;
      if String.eqb new_password current_password then reject PasswordUnchanged
      else
        update_data "new_password" (VStr new_password);;
        set_state waiting_for_password_confirmation;;
        emit (Answer (Prompt waiting_for_password_confirmation)).

Definition process_password_confirmation (from_user : Z) (text : option string)
  : Handler W unit :=
  adm ← sender_is_admin from_user;
  if negb adm then emit (Answer NoPermission);; state_clear
  else
    confirmation ← text_strip text;
    data ← get_data;
    let new_password := data_get "new_password" data in
    if negb (bool_decide (VStr confirmation = new_password)) then reject PasswordMismatch
    else
      success ← command (update_password new_password);
      state_clear;;
      emit (Answer (Outcome success)).

(** *** Cancel, lines 2399-2420 *)

Definition cancel_admin_action_handler (from_user : Z) : Handler W unit :=
  state_clear;;
  emit (Present Cancelled);;
  emit (Answer BackToPanelHint);;
  emit Ack.

(** *** Broadcast, lines 2424-2566 *)

Definition start_broadcast (from_user : Z) : Handler W unit :=
  adm ← sender_is_admin from_user;
  if negb adm then emit (Alert NoPermission)
  else
    set_state waiting_for_broadcast_message;;
    emit (Present (Prompt waiting_for_broadcast_message));;
    emit Ack.

Definition process_broadcast_message (from_user : Z) (text : option string)
  : Handler W unit :=
  adm ← sender_is_admin from_user;
  if negb adm then emit (Answer NoPermission);; state_clear
  else
    let broadcast_message :=
      match text with
      | Some t => if is_empty t then "" else strip t
      | None => ""
      end in
    if is_empty broadcast_message || (len broadcast_message <? 5) then reject MessageTooShort
    else
      update_data "broadcast_message" (VStr broadcast_message);;
      set_state waiting_for_broadcast_confirmation;;
      all_users ← query get_all_users;
      emit (Answer (ConfirmBroadcast broadcast_message (Z.of_nat (length all_users)))).

(** [await bot.send_message(chat_id=telegram_id, ...)] for the [i]-th
    recipient. *)
Definition send_message (bot : Bot) (i : nat) (telegram_id : Z) (text : value)
  : Handler W unit :=
  fun c => (if delivers bot i then Ok tt else Raise TelegramError, c,
            [SendMessage telegram_id text]).

(** The guarded [callback_query.message.edit_text] of lines 2536-2545. *)
Definition edit_progress (bot : Bot) (i : nat) (m : Msg) : Handler W unit :=
  fun c => (if progress_shown bot i then Ok tt else Raise TelegramError, c,
            [EditText m]).

(** The [for user in all_users] loop, lines 2523-2549.  The only call of
    the outer [try] body that can raise is [send_message]: the counters
    then still have their values from before the iteration, and the
    [except] branch counts one error.  The inner [try] swallows whatever
    the progress edit raises. *)
Fixpoint send_loop (bot : Bot) (broadcast_message : value) (total : Z)
    (users : list UserRow) (i : nat) (sent_count error_count : Z)
  : Handler W (Z * Z) :=
  match users with
  | [] => mret (sent_count, error_count)
  | user :: rest =>
      let telegram_id := u_telegram_id user in
      r ← attempt (send_message bot i telegram_id broadcast_message);
      match r with
      | Ok _ =>
          let sent_count := sent_count + 1 in
          (if sent_count mod 10 =? 0
           then attempt (edit_progress bot i (Sending total sent_count error_count));; mret tt
           else mret tt);;
          send_loop bot broadcast_message total rest (S i) sent_count error_count
      | Raise _ =>
          send_loop bot broadcast_message total rest (S i) sent_count (error_count + 1)
      end
  end.

Definition confirm_broadcast (bot : Bot) (from_user : Z) : Handler W unit :=
  adm ← sender_is_admin from_user;
  if negb adm then emit (Alert NoPermission)
  else
    data ← get_data;
    let broadcast_message := data_get "broadcast_message" data in
    if negb (truthy broadcast_message) then
      emit (Alert MessageNotFound);; state_clear
    else
      all_users ← query get_all_users;
      let total := Z.of_nat (length all_users) in
      emit (EditText (Sending total 0 0));;
      counts ← send_loop bot broadcast_message total all_users 0%nat 0 0;
      let '(sent_count, error_count) := (counts : Z * Z) in
      ratio ← py_truediv sent_count total;
      emit (EditText (Finished total sent_count error_count (ratio * 100)%Q));;
      state_clear;;
      emit Ack.

(** ** Routing *)

(** [@admin_router.message(AdminStates.s)]: the handler registered for
    the text sent at step [s]. *)
Definition message_handler (s : AdminStates)
  : option (Z -> option string -> Handler W unit) :=
  match s with
  | waiting_for_group_link => Some process_group_link
  | waiting_for_group_name => Some process_group_name
  | waiting_for_group_sheet_selection => None
  | waiting_for_group_id_to_delete => Some process_group_delete
  | waiting_for_sheet_name => Some process_sheet_name
  | waiting_for_google_sheet_url => Some process_google_sheet_url
  | waiting_for_google_sheet_worksheet_name => Some process_google_sheet_worksheet_name
  | waiting_for_new_password => Some process_new_password
  | waiting_for_password_confirmation => Some process_password_confirmation
  | waiting_for_new_admin_id => Some process_new_admin_id
  | waiting_for_admin_name => Some process_admin_name
  | waiting_for_admin_delete_confirmation => Some process_admin_delete
  | waiting_for_new_approver_id => Some process_new_approver_id
  | waiting_for_approver_name => Some process_approver_name
  | waiting_for_approver_delete_confirmation => Some process_approver_delete
  | waiting_for_user_search => None
  | waiting_for_broadcast_message => Some process_broadcast_message
  | waiting_for_broadcast_confirmation => None
  end.

(** An event reaching the admin router while the session is at a step. *)
Inductive Event :=
| Text (text : option string)        (* a message *)
| Choice (callback_data : string).   (* a pressed inline button *)

(** The handler of admin.py that the filters on the session's step and on
    the callback data select for an event; an event none of them selects is
    left alone.  The command handler [/rava] and the other routers, which
    aiogram consults first, are outside the model: the events considered are
    those that reach these handlers. *)
Definition dispatch (bot : Bot) (from_user : Z) (ev : Event) : Handler W unit :=
  fun c =>
    match ev with
    | Text text =>
        match fsm_state (fsm c) with
        | Some (Admin s) =>
            match message_handler s with
            | Some h => h from_user text c
            | None => (Ok tt, c, [])
            end
        | _ => (Ok tt, c, [])
        end
    | Choice callback_data =>
        if String.eqb callback_data "cancel_admin_action"
        then cancel_admin_action_handler from_user c
        else if String.eqb callback_data "confirm_broadcast"
        then confirm_broadcast bot from_user c
        else if bool_decide (fsm_state (fsm c) = Some (Admin waiting_for_group_sheet_selection))
                && String.prefix "select_sheet_" callback_data
        then process_group_sheet_selection from_user callback_data c
        else (Ok tt, c, [])
    end.

(** Successive events of one operator. *)
Fixpoint feed (bot : Bot) (from_user : Z) (evs : list Event) (c : Ctx W) : Ctx W :=
  match evs with
  | [] => c
  | ev :: rest => feed bot from_user rest (dispatch bot from_user ev c).1.2
  end.

(** The handler answered with the error text of a failed validation and
    nothing else. *)
Definition is_rejection (outs : list Out) : bool :=
  match outs with
  | [Answer (Error _)] => true
  | [Alert (Error _)] => true
  | _ => false
  end.

End Handlers.

(** ** An in-memory stand-in for the collaborators

    Used to run the handlers on concrete inputs.  Writes succeed when their
    arguments have the expected types; adding a group whose id is already
    registered fails. *)

Record Memory := mkMemory {
  m_password : string;
  m_users : list UserRow;
  m_sheets : list SheetRow;
  m_groups : list GroupRow
}.

Definition memory_add_group (group_id group_name topic_id : value) (sheet_id : Z)
    (w : Memory) : bool * Memory :=
  match group_id, group_name with
  | VInt g, VStr n =>
      if existsb (fun row => g_group_id row =? g) (m_groups w) then (false, w)
      else (true, mkMemory (m_password w) (m_users w) (m_sheets w)
                    (m_groups w ++ [mkGroup (Z.of_nat (length (m_groups w)) + 1) g n
                                            topic_id (VInt sheet_id) ""])%list)
  | _, _ => (false, w)
  end.

Definition memory_delete_group (group_id : Z) (w : Memory) : bool * Memory :=
  (existsb (fun row => g_group_id row =? group_id) (m_groups w),
   mkMemory (m_password w) (m_users w) (m_sheets w)
     (List.filter (fun row => negb (g_group_id row =? group_id)) (m_groups w))).

Definition memory_add_sheet (sheet_name spreadsheet_id : value) (worksheet_name : string)
    (w : Memory) : bool * Memory :=
  match sheet_name, spreadsheet_id with
  | VStr n, VStr d =>
      (true, mkMemory (m_password w) (m_users w)
               (m_sheets w ++ [mkSheet (Z.of_nat (length (m_sheets w)) + 1) n d
                                       worksheet_name true])%list
               (m_groups w))
  | _, _ => (false, w)
  end.

Definition memory_update_password (new_password : value) (w : Memory) : bool * Memory :=
  match new_password with
  | VStr p => (true, mkMemory p (m_users w) (m_sheets w) (m_groups w))
  | _ => (false, w)
  end.

Lemma memory_update_password_stored p w w' :
  memory_update_password (VStr p) w = (true, w') -> m_password w' = p.
Proof. intros [= <-]. reflexivity. Qed.

#[global] Instance memory_collaborators : Collaborators Memory := {|
  get_all_users := m_users;
  get_all_google_sheets := m_sheets;
  get_google_sheet_by_id := fun sheet_id w =>
    List.find (fun row => s_sheet_id row =? sheet_id) (m_sheets w);
  get_all_telegram_groups := m_groups;
  get_telegram_group_by_id := fun group_id w =>
    List.find (fun row => g_group_id row =? group_id) (m_groups w);
  add_telegram_group := memory_add_group;
  delete_telegram_group := memory_delete_group;
  add_google_sheet := memory_add_sheet;
  get_worksheet := fun spreadsheet_id worksheet_name w =>
    match spreadsheet_id with VStr _ => Some true | _ => None end;
  get_current_password := m_password;
  update_password := memory_update_password;
  update_password_stored := memory_update_password_stored
|}.

(** A recipient row with a given Telegram id. *)
Definition recipient (telegram_id : Z) : UserRow :=
  mkUser telegram_id telegram_id "worker" "2025-01-01 00:00:00" false "group".

(** A store without users, sheets or groups whose access code is "2024". *)
Definition empty_memory : Memory := mkMemory "2024" [] [] [].

(** What the broadcast loop sent to recipients, and the sent-counts shown by
    its progress edits. *)
Definition is_send (o : Out) : bool :=
  match o with SendMessage _ _ => true | _ => false end.

Definition progress_counts (outs : list Out) : list Z :=
  omap (fun o => match o with
                 | EditText (Sending _ sent _) => Some sent
                 | _ => None
                 end) outs.

(** The capability a text step requires from its sender. *)
Definition has_required_role (ADMIN_ID : Z) (s : AdminStates) (r : Roles) (from_user : Z) : bool :=
  match s with
  | waiting_for_new_admin_id
  | waiting_for_admin_name
  | waiting_for_admin_delete_confirmation => from_user =? ADMIN_ID
  | _ => is_admin ADMIN_ID r from_user
  end.

(** The session left by [state.clear()]. *)
Definition cleared : FSMContext := mkFSM None ∅.

(** Every character of [s] is in the class [f]. *)
Fixpoint all_chars (f : ascii -> bool) (s : string) : bool :=
  match s with
  | EmptyString => true
  | String c t => f c && all_chars f t
  end.

(** The session after the first step of the add-work-group flow stored
    [group_id] and [topic_id]. *)
Definition group_link_accepted {W} (c : Ctx W) (group_id : Z) (topic_id : value)
  : res unit * Ctx W * list Out :=
  (Ok tt,
   mkCtx (mkFSM (Some (Admin waiting_for_group_name))
                (<["temp_topic_id" := topic_id]>
                   (<["temp_group_id" := VInt group_id]> (fsm_data (fsm c)))))
         (roles c) (world c),
   [Answer (Prompt waiting_for_group_name)]).

(** How many of the [n] deliveries from position [i] on succeed. *)
Fixpoint delivered (bot : Bot) (i n : nat) : nat :=
  match n with
  | O => O
  | S n' => ((if delivers bot i then 1 else 0) + delivered bot (S i) n')%nat
  end.

(** The sent-counts among [s+1 .. s+n] that are multiples of 10. *)
Definition due_progress (s : Z) (n : nat) : list Z :=
  List.filter (fun v => v mod 10 =? 0) (map (fun k => s + Z.of_nat k) (seq 1 n)).

(** ** Further code of admin.py and bot.py *)

(** [get_all_admins()], lines 122-124.  [list(ADDITIONAL_ADMINS)] lists the
    members of the set in an order Python does not specify; [elements] is
    one such order. *)
Definition get_all_admins (ADMIN_ID : Z) (r : Roles) : list Z :=
  ADMIN_ID :: elements (ADDITIONAL_ADMINS r).

(** [get_all_approvers()], lines 126-132. *)
Definition get_all_approvers (HELPER_ID : Z) (r : Roles) : list Z :=
  (if negb (HELPER_ID =? 0) then [HELPER_ID] else []) ++ elements (APPROVERS r).

(** [str(z)] for an int: decimal digits, most significant first, after a
    minus sign for a negative number.  The number of binary digits bounds
    the number of decimal digits and serves as fuel. *)
Definition digit_char (d : Z) : ascii := ascii_of_N (Z.to_N (48 + d)).

Fixpoint dec_digits (fuel : nat) (n : Z) (acc : string) : string :=
  match fuel with
  | O => acc
  | S fuel' =>
      let acc' := String (digit_char (n mod 10)) acc in
      if n <? 10 then acc' else dec_digits fuel' (n / 10) acc'
  end.

Definition py_str (z : Z) : string :=
  if z <? 0 then String "-" (dec_digits (S (Z.to_nat (Z.log2 (- z)))) (- z) "")
  else dec_digits (S (Z.to_nat (Z.log2 z))) z "".

(** [int(callback_query.data.split("_")[-1])], the way the callback
    handlers read their argument (lines 536, 566, 610, 636, 658, 705,
    1176); [None] stands for [ValueError]. *)
Definition callback_last_int (callback_data : string) : option Z :=
  py_int (last_segment callback_data).

(** The captions of the buttons of the workers list; the caption of a
    numbered button is [str(i)]. *)
Inductive Label :=
| NumberLabel (i : Z)
| PreviousLabel
| PageLabel (page total_pages : Z)
| NextLabel
| AdminMenuLabel.

Record Button := mkButton {
  b_text : Label;
  b_callback_data : string
}.

(** Lines 388-394: one numbered button per worker, counted from [i]. *)
Fixpoint number_buttons (workers : list UserRow) (i : Z) : list Button :=
  match workers with
  | [] => []
  | worker :: rest =>
      mkButton (NumberLabel i) ("worker_select_" +:+ py_str (u_telegram_id worker))
      :: number_buttons rest (i + 1)
  end.

(** Lines 397-398: [for i in range(0, len(l), n): rows.append(l[i:i + n])];
    the loop runs at most [len(l)] times. *)
Fixpoint rows_of {A} (fuel n : nat) (l : list A) : list (list A) :=
  match fuel with
  | O => []
  | S fuel' =>
      match l with
      | [] => []
      | _ :: _ => take n l :: rows_of fuel' n (drop n l)
      end
  end.

(** Lines 401-408. *)
Definition pagination_buttons (page total_pages : Z) : list Button :=
  ((if 1 <? page
    then [mkButton PreviousLabel ("workers_page_" +:+ py_str (page - 1))]
    else [])
   ++ [mkButton (PageLabel page total_pages) "current_page"]
   ++ (if page <? total_pages
       then [mkButton NextLabel ("workers_page_" +:+ py_str (page + 1))]
       else []))%list.

(** [get_workers_list_keyboard_with_pagination], lines 382-416: the rows of
    the inline keyboard. *)
Definition get_workers_list_keyboard_with_pagination (workers : list UserRow)
    (page total_pages : Z) : list (list Button) :=
  let numbered := number_buttons workers 1 in
  (rows_of (length numbered) 5 numbered
   ++ (match pagination_buttons page total_pages with
       | [] => []
       | row => [row]
       end)
   ++ [[mkButton AdminMenuLabel "admin_menu"]])%list.

(** [s.split()]: the maximal runs of characters that are not whitespace.
    [cur] is the run being read. *)
Fixpoint split_ws_from (s cur : string) : list string :=
  match s with
  | EmptyString => if is_empty cur then [] else [cur]
  | String c t =>
      if is_space c
      then (if is_empty cur then split_ws_from t "" else cur :: split_ws_from t "")
      else split_ws_from t (cur +:+ String c "")
  end.

Definition split_ws (s : string) : list string := split_ws_from s "".

(** [extract_first_name], bot.py lines 43-48. *)
Definition extract_first_name (full_text : string) : string :=
  match split_ws (strip full_text) with
  | word :: _ => word
  | [] => strip full_text
  end.

(** *** Navigation and routing inside the admin router *)

Section Router.
Context {W : Type} `{!Collaborators W}.
Variables ADMIN_ID HELPER_ID : Z.

(** [back_to_admin_menu], lines 2339-2370. *)
Definition back_to_admin_menu (from_user : Z) : Handler W unit :=
  adm ← sender_is_admin ADMIN_ID from_user;
  if negb adm then emit (Alert NoPermission)
  else
    state_clear;;
    emit (Present Panel);;
    emit Ack.

(** The handlers registered with [F.data == "..."] that open a flow or
    return to the panel. *)
Definition start_handler (callback_data : string) : option (Z -> Handler W unit) :=
  if String.eqb callback_data "approver_add" then Some (add_approver_start ADMIN_ID)
  else if String.eqb callback_data "approver_remove" then Some (remove_approver_start ADMIN_ID)
  else if String.eqb callback_data "group_add" then Some (add_group_start ADMIN_ID)
  else if String.eqb callback_data "group_delete" then Some (delete_group_start ADMIN_ID)
  else if String.eqb callback_data "sheets_add" then Some (add_sheet_start ADMIN_ID)
  else if String.eqb callback_data "admin_add" then Some (add_admin_start ADMIN_ID)
  else if String.eqb callback_data "admin_remove" then Some (remove_admin_start ADMIN_ID)
  else if String.eqb callback_data "change_password_start" then Some (start_password_change ADMIN_ID)
  else if String.eqb callback_data "admin_broadcast" then Some (start_broadcast ADMIN_ID)
  else if String.eqb callback_data "admin_menu" then Some back_to_admin_menu
  else None.

(** What reaches the admin router: the command [/rava], or a text or a
    pressed button. *)
Inductive Update :=
| Rava
| Incoming (ev : Event).

(** The handlers of admin.py that touch the session, selected by their
    filters.  ([exit_admin_panel], whose texts are not modelled, touches the
    session by [state.clear()] only; the remaining handlers of admin.py do
    not touch it.) *)
Definition admin_router (bot : Bot) (from_user : Z) (up : Update) : Handler W unit :=
  match up with
  | Rava => handle_admin_command ADMIN_ID from_user
  | Incoming (Choice callback_data) =>
      match start_handler callback_data with
      | Some h => h from_user
      | None => dispatch ADMIN_ID HELPER_ID bot from_user (Choice callback_data)
      end
  | Incoming (Text text) => dispatch ADMIN_ID HELPER_ID bot from_user (Text text)
  end.

(** The sessions one operator can be in: starting from a cleared session,
    each step is one update of that operator handled by [admin_router];
    between two steps the role sets and the outside world may have changed
    in any way. *)
Inductive reachable_session (from_user : Z) : FSMContext -> Prop :=
| reach_cleared : reachable_session from_user cleared
| reach_update (f : FSMContext) (r : Roles) (w : W) (bot : Bot) (up : Update) :
    reachable_session from_user f ->
    reachable_session from_user (fsm (admin_router bot from_user up (mkCtx f r w)).1.2).

(** The fields a step relies on: what the later handlers of a flow read
    from the session has been stored by the earlier ones, with the type and
    the bounds they checked; the steps that manage administrators belong to
    the primary administrator. *)
Definition group_fields (d : gmap string value) : Prop :=
  (exists g, d !! "temp_group_id" = Some (VInt g) /\ g <> 0)
  /\ (d !! "temp_topic_id" = Some VNone
      \/ exists t, d !! "temp_topic_id" = Some (VInt t) /\ 0 <= t).

Definition sheet_name_field (d : gmap string value) : Prop :=
  exists n, d !! "temp_sheet_name" = Some (VStr n) /\ 3 <= len n.

Definition session_ok (from_user : Z) (f : FSMContext) : Prop :=
  match fsm_state f with
  | Some (Admin waiting_for_group_name) => group_fields (fsm_data f)
  | Some (Admin waiting_for_group_sheet_selection) =>
      group_fields (fsm_data f)
      /\ exists n, fsm_data f !! "temp_group_name" = Some (VStr n) /\ 3 <= len n
  | Some (Admin waiting_for_google_sheet_url) => sheet_name_field (fsm_data f)
  | Some (Admin waiting_for_google_sheet_worksheet_name) =>
      sheet_name_field (fsm_data f)
      /\ exists d, fsm_data f !! "temp_spreadsheet_id" = Some (VStr d)
                   /\ d <> "" /\ all_chars is_id_char d = true
  | Some (Admin waiting_for_password_confirmation) =>
      exists p, fsm_data f !! "new_password" = Some (VStr p)
                /\ 4 <= len p /\ strip p = p
  | Some (Admin waiting_for_new_admin_id) => from_user = ADMIN_ID
  | Some (Admin waiting_for_admin_delete_confirmation) => from_user = ADMIN_ID
  | Some (Admin waiting_for_admin_name) =>
      from_user = ADMIN_ID
      /\ exists z, fsm_data f !! "new_admin_id" = Some (VInt z) /\ z <> ADMIN_ID
  | Some (Admin waiting_for_approver_name) =>
      exists z, fsm_data f !! "new_approver_id" = Some (VInt z) /\ z <> HELPER_ID
  | Some (Admin waiting_for_broadcast_confirmation) =>
      exists m, fsm_data f !! "broadcast_message" = Some (VStr m)
                /\ 5 <= len m /\ strip m = m
  | _ => True
  end.

End Router.

(** The identity a registry command is about. *)
Definition op_target (op : RoleOp) : Z :=
  match op with
  | AddAdmin u | RemoveAdmin u | AddApprover u | RemoveApprover u => u
  end.

(** The buttons that open the two flows reserved to the primary
    administrator. *)
Definition start_requires_primary (callback_data : string) : bool :=
  String.eqb callback_data "admin_add" || String.eqb callback_data "admin_remove".

(** What [process_google_sheet_url] leaves when it accepts the document id
    [d]. *)
Definition sheet_url_accepted {W} (c : Ctx W) (d : string)
  : res unit * Ctx W * list Out :=
  (Ok tt,
   mkCtx (mkFSM (Some (Admin waiting_for_google_sheet_worksheet_name))
                (<["temp_spreadsheet_id" := VStr d]> (fsm_data (fsm c))))
         (roles c) (world c),
   [Answer (Prompt waiting_for_google_sheet_worksheet_name)]).

(** * Properties *)

(** ** Role registry *)

Section RoleRegistryFacts.
Variables ADMIN_ID HELPER_ID : Z.

#[local] Abbreviation run := (run_ops ADMIN_ID HELPER_ID).
#[local] Abbreviation step := (run_op ADMIN_ID HELPER_ID).

Lemma is_admin_spec r id :
  is_admin ADMIN_ID r id = true <-> id = ADMIN_ID \/ id ∈ ADDITIONAL_ADMINS r.
Proof.
  unfold is_admin. rewrite orb_true_iff, Z.eqb_eq, bool_decide_eq_true. tauto.
Qed.

Lemma is_approver_spec r id :
  is_approver ADMIN_ID HELPER_ID r id = true
  <-> (id = HELPER_ID \/ id ∈ APPROVERS r \/ is_admin ADMIN_ID r id = true).
Proof.
  unfold is_approver. rewrite !orb_true_iff, Z.eqb_eq, bool_decide_eq_true. tauto.
Qed.

Lemma run_ops_snoc ops op r :
  run (ops ++ [op]) r = snd (step op (run ops r)).
Proof. unfold run_ops. rewrite fold_left_app. reflexivity. Qed.

(** What every mutator preserves. *)
Definition roles_ok (r : Roles) : Prop :=
  (ADMIN_ID ∉ ADDITIONAL_ADMINS r) ∧ (HELPER_ID ∉ APPROVERS r) ∧ (ADMIN_ID ∉ APPROVERS r).

Lemma roles_ok_initial : roles_ok initial_roles.
Proof. unfold roles_ok, initial_roles; simpl. set_solver. Qed.

Lemma roles_ok_step op r : roles_ok r -> roles_ok (snd (step op r)).
Proof.
  intros (Ha & Hh & Hp). destruct op as [u|u|u|u]; simpl.
  - unfold add_admin. case_bool_decide as Hin; simpl; [|done].
    destruct (Z.eqb_spec u ADMIN_ID); simpl; [done|].
    unfold roles_ok; simpl. set_solver.
  - unfold remove_admin. case_bool_decide; simpl; [|done].
    unfold roles_ok; simpl. set_solver.
  - unfold add_approver. case_bool_decide as Hin; simpl; [|done].
    destruct (Z.eqb_spec u HELPER_ID); simpl; [done|].
    destruct (is_admin ADMIN_ID r u) eqn:Hadm; simpl; [done|].
    assert (u <> ADMIN_ID).
    { intros ->. unfold is_admin in Hadm. rewrite Z.eqb_refl in Hadm. done. }
    unfold roles_ok; simpl. set_solver.
  - unfold remove_approver. case_bool_decide; simpl; [|done].
    unfold roles_ok; simpl. set_solver.
Qed.

Lemma roles_ok_run ops : roles_ok (run ops initial_roles).
Proof.
  induction ops as [|op ops IH] using rev_ind.
  - apply roles_ok_initial.
  - rewrite run_ops_snoc. by apply roles_ok_step.
Qed.

Lemma add_approver_of_admin r id :
  is_admin ADMIN_ID r id = true -> add_approver ADMIN_ID HELPER_ID id r = (false, r).
Proof.
  intros Hadm. unfold add_approver. rewrite Hadm.
  by rewrite andb_false_r.
Qed.

(** C3 (as amended): in every state reached from the initial role sets by
    any sequence of add_admin / remove_admin / add_approver /
    remove_approver calls, ADDITIONAL_ADMINS does not contain ADMIN_ID,
    APPROVERS contains neither HELPER_ID nor ADMIN_ID, and add_approver
    returns False and changes nothing for an identity that is an
    administrator. *)
Theorem roles_invariant (ops : list RoleOp) (id : Z) :
  let r := run ops initial_roles in
  (ADMIN_ID ∉ ADDITIONAL_ADMINS r)
  ∧ (HELPER_ID ∉ APPROVERS r)
  ∧ (ADMIN_ID ∉ APPROVERS r)
  ∧ (is_admin ADMIN_ID r id = true ->
      add_approver ADMIN_ID HELPER_ID id r = (false, r)).
Proof.
  intros r. destruct (roles_ok_run ops) as (Ha & Hh & Hp).
  repeat split; try assumption. apply add_approver_of_admin.
Qed.

Lemma add_admin_failed id r :
  fst (add_admin ADMIN_ID id r) = false -> snd (add_admin ADMIN_ID id r) = r.
Proof. unfold add_admin. by case_match. Qed.

Lemma remove_admin_failed id r :
  fst (remove_admin id r) = false -> snd (remove_admin id r) = r.
Proof. unfold remove_admin. by case_match. Qed.

(** C6: remove_admin(ADMIN_ID) returns False in every reachable state of
    the registry, and an add_admin or remove_admin call that returns False
    leaves the role sets, ADDITIONAL_ADMINS in particular, as they were. *)
Theorem failed_admin_update (ops : list RoleOp) (r : Roles) (id : Z) :
  remove_admin ADMIN_ID (run ops initial_roles) = (false, run ops initial_roles)
  /\ (fst (add_admin ADMIN_ID id r) = false ->
      ADDITIONAL_ADMINS (snd (add_admin ADMIN_ID id r)) = ADDITIONAL_ADMINS r)
  /\ (fst (remove_admin id r) = false ->
      ADDITIONAL_ADMINS (snd (remove_admin id r)) = ADDITIONAL_ADMINS r).
Proof.
  split; [|split].
  - destruct (roles_ok_run ops) as (Ha & _).
    unfold remove_admin. by rewrite bool_decide_eq_false_2.
  - intros Hf. by rewrite add_admin_failed.
  - intros Hf. by rewrite remove_admin_failed.
Qed.

End RoleRegistryFacts.

(** ** Text primitives *)

Example strip_ex : strip "  2025 " = "2025". Proof. reflexivity. Qed.
Example py_int_ex1 : py_int " -1001234567890 " = Some (-1001234567890). Proof. reflexivity. Qed.
Example py_int_ex2 : py_int "1_000" = Some 1000. Proof. reflexivity. Qed.
Example py_int_ex3 : py_int "12a" = None. Proof. reflexivity. Qed.
Example py_int_ex4 : py_int "+-1" = None. Proof. reflexivity. Qed.
Example topic_ex : match_channel_topic "https://t.me/c/1234567890/123" = Some ("1234567890", "123").
Proof. reflexivity. Qed.
Example no_topic_ex : match_channel_no_topic "https://t.me/c/1234567890/abc" = Some "1234567890".
Proof. reflexivity. Qed.
Example numeric_ex : match_numeric_id "-1001234567890" = true /\ match_numeric_id "not-a-link" = false.
Proof. split; reflexivity. Qed.
Example last_segment_ex : last_segment "select_sheet_12" = "12". Proof. reflexivity. Qed.
Example search_ex : search_sheet_url "see https://docs.google.com/spreadsheets/d/Ab_c-9/edit" = Some "Ab_c-9".
Proof. reflexivity. Qed.

#[local] Arguments String.append !_ _ / : simpl nomatch.

Lemma digit_val_range c d : digit_val c = Some d -> 0 <= d <= 9.
Proof.
  unfold digit_val. destruct (_ && _) eqn:E; [|done].
  intros [= <-]. apply andb_true_iff in E as [?%Z.leb_le ?%Z.leb_le]. lia.
Qed.

Lemma digit_not_space c : is_digit c = true -> is_space c = false.
Proof.
  unfold is_digit, digit_val, is_space. destruct (_ && _) eqn:E; [|done].
  intros _. apply andb_true_iff in E as [?%Z.leb_le ?%Z.leb_le].
  repeat apply orb_false_intro; try apply andb_false_iff; lia.
Qed.

Lemma digit_not_sign c :
  is_digit c = true -> Ascii.eqb c "-" = false /\ Ascii.eqb c "+" = false.
Proof.
  intros Hd. split; apply Ascii.eqb_neq; intros ->; discriminate Hd.
Qed.

Lemma span_all f s : all_chars f (span f s).1 = true.
Proof.
  induction s as [|c t IH]; simpl; [done|].
  destruct (f c) eqn:Hc; [|done].
  destruct (span f t) as [run rest]. simpl in *. by rewrite Hc.
Qed.

Lemma span_app f s : (span f s).1 +:+ (span f s).2 = s.
Proof.
  induction s as [|c t IH]; simpl; [done|].
  destruct (f c); [|done].
  destruct (span f t) as [run rest]. simpl in *. by rewrite IH.
Qed.

Lemma lstrip_spaces w : all_chars is_space w = true -> lstrip w = "".
Proof.
  induction w as [|c t IH]; simpl; [done|].
  intros [-> ?]%andb_true_iff. auto.
Qed.

Lemma rstrip_spaces w : all_chars is_space w = true -> rstrip w = "".
Proof.
  induction w as [|c t IH]; simpl; [done|].
  intros [-> ?]%andb_true_iff. by rewrite IH.
Qed.

Lemma rstrip_app s w :
  all_chars (fun c => negb (is_space c)) s = true ->
  all_chars is_space w = true ->
  rstrip (s +:+ w) = s.
Proof.
  intros Hs Hw. induction s as [|c t IH]; simpl.
  - by apply rstrip_spaces.
  - simpl in Hs. apply andb_true_iff in Hs as [Hc Ht].
    rewrite (IH Ht). destruct t; [|done].
    by apply negb_true_iff in Hc as ->.
Qed.

Lemma digits_no_space s :
  all_chars is_digit s = true -> all_chars (fun c => negb (is_space c)) s = true.
Proof.
  induction s as [|c t IH]; simpl; [done|].
  intros [Hc Ht]%andb_true_iff. by rewrite (digit_not_space _ Hc), IH.
Qed.

(** Stripping a run of digits, with an optional minus sign in front and
    whitespace behind it, leaves the sign and the digits. *)
Lemma strip_signed_digits (minus : bool) ds w :
  all_chars is_digit ds = true -> ds <> "" ->
  all_chars is_space w = true ->
  strip ((if minus then "-" else "") +:+ ds +:+ w)
    = (if minus then "-" else "") +:+ ds.
Proof.
  intros Hd Hne Hw. unfold strip.
  assert (Hl : lstrip ((if minus then "-" else "") +:+ ds +:+ w)
               = (if minus then "-" else "") +:+ ds +:+ w).
  { destruct minus; [done|]. destruct ds as [|c t]; [done|]. simpl in *.
    apply andb_true_iff in Hd as [Hc _]. by rewrite (digit_not_space _ Hc). }
  rewrite Hl. destruct minus; simpl.
  - change (rstrip (("-" +:+ ds) +:+ w) = "-" +:+ ds).
    apply rstrip_app; [|done]. simpl. by apply digits_no_space.
  - apply rstrip_app; [|done]. by apply digits_no_space.
Qed.

Lemma int_digits_all ds acc :
  all_chars is_digit ds = true -> 0 <= acc ->
  exists v, int_digits ds acc = Some v /\ acc <= v.
Proof.
  revert acc. induction ds as [|c t IH]; intros acc Hd Hacc; simpl.
  - exists acc. split; [done|lia].
  - simpl in Hd. apply andb_true_iff in Hd as [Hc Ht].
    unfold is_digit in Hc. destruct (digit_val c) as [d|] eqn:Hdv; [|done].
    pose proof (digit_val_range _ _ Hdv).
    destruct (IH (acc * 10 + d) Ht) as (v & Hv & Hle); [lia|].
    exists v. split; [done|lia].
Qed.

Lemma int_unsigned_digits ds :
  all_chars is_digit ds = true -> ds <> "" ->
  exists v, int_unsigned ds = Some v /\ 0 <= v.
Proof.
  destruct ds as [|c t]; [done|]. simpl. intros [Hc Ht]%andb_true_iff _.
  unfold is_digit in Hc. destruct (digit_val c) as [d|] eqn:Hdv; [|done].
  pose proof (digit_val_range _ _ Hdv).
  destruct (int_digits_all t d Ht) as (v & Hv & Hle); [lia|].
  exists v. split; [done|lia].
Qed.

(** [int] of a run of digits is a natural number. *)
Lemma py_int_digits ds :
  all_chars is_digit ds = true -> ds <> "" ->
  exists v, py_int ds = Some v /\ 0 <= v.
Proof.
  intros Hd Hne. unfold py_int.
  pose proof (strip_signed_digits false ds "" Hd Hne eq_refl) as Hs.
  simpl in Hs. replace (ds +:+ "") with ds in Hs
    by (clear; induction ds; simpl; congruence).
  rewrite Hs. destruct ds as [|c t]; [done|].
  simpl in Hd. apply andb_true_iff in Hd as [Hc Ht].
  destruct (digit_not_sign _ Hc) as [-> ->].
  apply int_unsigned_digits; [|done]. simpl. by rewrite Hc.
Qed.

(** [int("-100" + digits)] is a negative number. *)
Lemma py_int_channel ds :
  all_chars is_digit ds = true ->
  exists v, py_int ("-100" +:+ ds) = Some v /\ v <= -100.
Proof.
  intros Hd. unfold py_int.
  pose proof (strip_signed_digits true ("100" +:+ ds) "" ) as Hs.
  simpl in Hs. replace (ds +:+ "") with ds in Hs
    by (clear; induction ds; simpl; congruence).
  simpl. rewrite Hs; [|done..]. simpl.
  destruct (int_digits_all ds 100 Hd) as (v & Hv & Hle); [lia|].
  unfold int_unsigned. simpl.
  match goal with |- context [int_digits ds ?a] => change a with 100 end.
  rewrite Hv. simpl. exists (- v). split; [done|lia].
Qed.

Lemma match_channel_topic_digits link g1 g2 :
  match_channel_topic link = Some (g1, g2) ->
  all_chars is_digit g1 = true /\ all_chars is_digit g2 = true /\ g2 <> "".
Proof.
  unfold match_channel_topic. destruct (strip_prefix _ link) as [rest|]; [|done].
  pose proof (span_all is_digit rest) as H1.
  destruct (span is_digit rest) as [d1 rest1]. simpl in H1.
  destruct (is_empty d1); [done|].
  destruct rest1 as [|c rest2]; [done|]. destruct (Ascii.eqb c "/"); [|done].
  pose proof (span_all is_digit rest2) as H2.
  destruct (span is_digit rest2) as [d2 rest3]. simpl in H2.
  destruct d2; [done|]. intros [= <- <-]. done.
Qed.

Lemma match_channel_no_topic_digits link g1 :
  match_channel_no_topic link = Some g1 -> all_chars is_digit g1 = true.
Proof.
  unfold match_channel_no_topic. destruct (strip_prefix _ link) as [rest|]; [|done].
  pose proof (span_all is_digit rest) as H1.
  destruct (span is_digit rest) as [d1 rest1]. simpl in H1.
  destruct (is_empty d1); [done|]. by intros [= <-].
Qed.

(** Whatever [^-?\d+$] matches, [int] converts. *)
Lemma match_numeric_id_int link :
  match_numeric_id link = true -> exists v, py_int link = Some v.
Proof.
  unfold match_numeric_id.
  set (body := match link with
               | String c t => if Ascii.eqb c "-" then t else link
               | EmptyString => link
               end).
  pose proof (span_all is_digit body) as Hall.
  pose proof (span_app is_digit body) as Happ.
  destruct (span is_digit body) as [ds rest]. simpl in Hall, Happ.
  intros [Hne Hrest]%andb_true_iff.
  assert (ds <> "") by (by destruct ds).
  assert (Hw : all_chars is_space rest = true).
  { apply orb_true_iff in Hrest as [Hr|Hr].
    - by destruct rest.
    - apply String.eqb_eq in Hr as ->. reflexivity. }
  assert (Hlink : exists minus : bool,
            link = (if minus then "-" else "") +:+ ds +:+ rest
            /\ (minus = false -> exists c t, ds = String c t /\ is_digit c = true)).
  { subst body. destruct link as [|c t].
    - exists false. split; [by rewrite Happ|]. intros _. destruct ds; [done|].
      simpl in Hall. apply andb_true_iff in Hall as [? _]. eauto.
    - destruct (Ascii.eqb c "-") eqn:Hc.
      + apply Ascii.eqb_eq in Hc as ->. exists true. split; [by rewrite Happ|done].
      + exists false. split; [by rewrite Happ|]. intros _. destruct ds; [done|].
        simpl in Hall. apply andb_true_iff in Hall as [? _]. eauto. }
  destruct Hlink as (minus & -> & Hfirst).
  unfold py_int. rewrite strip_signed_digits by done.
  destruct (int_unsigned_digits ds Hall) as (v & Hv & _); [done|].
  destruct minus; simpl.
  - rewrite Hv. by eexists.
  - destruct (Hfirst eq_refl) as (c & t & -> & Hc). simpl.
    destruct (digit_not_sign _ Hc) as [-> ->]. by eexists.
Qed.

(** ** Handlers *)

Ltac unfold_handlers :=
  unfold process_group_link, process_group_name, process_group_delete,
    process_sheet_name, process_google_sheet_url,
    process_google_sheet_worksheet_name, process_new_password,
    process_password_confirmation, process_new_admin_id, process_admin_name,
    process_admin_delete, process_new_approver_id, process_approver_name,
    process_approver_delete, process_broadcast_message,
    process_group_sheet_selection, confirm_broadcast,
    cancel_admin_action_handler.

(** Unfolds the monad so that a handler body computes. *)
Ltac run_handler :=
  unfold accept_group;
  unfold sender_is_admin, reject, int_of, text_strip, read_roles, call_roles,
    query, command, get_data, update_data, set_state, state_clear, emit,
    raise, attempt, py_truediv;
  unfold mbind, mret, handler_bind, handler_ret;
  cbn [fst snd app fsm roles world fsm_state fsm_data negb].

(** Case analysis on every test a handler body performs, innermost
    scrutinee first. *)
Ltac crunch :=
  repeat first
    [ progress cbn [fst snd app fsm roles world fsm_state fsm_data negb
                    is_rejection]
    | match goal with
      | |- context [match ?x with _ => _ end] =>
          lazymatch x with
          | context [match _ with _ => _ end] => fail
          | _ => destruct x eqn:?
          end
      end ].

Section HandlerFacts.
Context {W : Type} `{!Collaborators W}.
Variables ADMIN_ID HELPER_ID : Z.

(** C10: the cancel handler checks no role: for every sender, whatever the
    step and fields of the session and whatever the role sets, it clears
    the session, touches neither the role sets nor the stored data (no
    commit runs), and returns normally. *)
Theorem cancel_clears_session (bot : Bot) (from_user : Z) (c : Ctx W) :
  cancel_admin_action_handler from_user c
    = (Ok tt, mkCtx cleared (roles c) (world c),
       [Present Cancelled; Answer BackToPanelHint; Ack])
  /\ dispatch ADMIN_ID HELPER_ID bot from_user (Choice "cancel_admin_action") c
    = cancel_admin_action_handler from_user c.
Proof. split; reflexivity. Qed.

Lemma denied_text_step (s : AdminStates) h (from_user : Z) (text : option string)
    (c : Ctx W) :
  message_handler ADMIN_ID HELPER_ID s = Some h ->
  has_required_role ADMIN_ID s (roles c) from_user = false ->
  h from_user text c = (Ok tt, mkCtx cleared (roles c) (world c), [Answer NoPermission]).
Proof.
  intros Hh Hrole.
  destruct s; simpl in Hh, Hrole; inversion Hh; subst h; clear Hh;
    unfold_handlers; run_handler; rewrite Hrole; reflexivity.
Qed.

(** C2 (as amended): when the sender of a text input fails the role check
    of the step (administrator; primary administrator for the steps that
    manage administrators), the handler validates and commits nothing,
    leaves the role sets and the stored data as they were, answers with the
    deny message and returns normally, and it clears the sender's session
    (step and fields are reset).  A denied button choice (sheet selection,
    broadcast confirmation) is answered with a deny alert and leaves the
    session as it was. *)
Theorem denied_input (bot : Bot) (s : AdminStates) h (from_user : Z)
    (text : option string) (callback_data : string) (c : Ctx W) :
  (message_handler ADMIN_ID HELPER_ID s = Some h ->
   has_required_role ADMIN_ID s (roles c) from_user = false ->
   h from_user text c
     = (Ok tt, mkCtx cleared (roles c) (world c), [Answer NoPermission]))
  /\ (is_admin ADMIN_ID (roles c) from_user = false ->
      process_group_sheet_selection ADMIN_ID from_user callback_data c
        = (Ok tt, c, [Alert NoPermission])
      /\ confirm_broadcast ADMIN_ID bot from_user c
        = (Ok tt, c, [Alert NoPermission])).
Proof.
  split.
  - apply denied_text_step.
  - intros Hrole. split; unfold_handlers; run_handler; rewrite Hrole; reflexivity.
Qed.

Lemma rejected_step (bot : Bot) (from_user : Z) (ev : Event) (c : Ctx W) :
  is_rejection (dispatch ADMIN_ID HELPER_ID bot from_user ev c).2 = true ->
  dispatch ADMIN_ID HELPER_ID bot from_user ev c
    = (Ok tt, c, (dispatch ADMIN_ID HELPER_ID bot from_user ev c).2).
Proof.
  unfold dispatch. destruct ev as [text|callback_data].
  - destruct (fsm_state (fsm c)) as [[s|s]|] eqn:Hs; [|by intros _..].
    destruct s; cbn [message_handler]; try (by intros _);
      unfold_handlers; run_handler; crunch; intros Hrej;
      first [discriminate Hrej | reflexivity].
  - unfold_handlers; run_handler; crunch; intros Hrej;
      first [discriminate Hrej | reflexivity].
Qed.

(** C9: an input that the handler of the session's current step rejects
    (it answers with the error text of a failed validation) leaves the
    sender's session, the role sets and the stored data exactly as they
    were, whatever the flow and the step; hence any number of rejected
    inputs in a row leaves the step and the fields unchanged. *)
Theorem rejected_inputs_leave_session (bot : Bot) (from_user : Z)
    (evs : list Event) (c : Ctx W) :
  Forall (fun ev =>
    is_rejection (dispatch ADMIN_ID HELPER_ID bot from_user ev c).2 = true) evs ->
  feed ADMIN_ID HELPER_ID bot from_user evs c = c
  /\ Forall (fun ev =>
       (dispatch ADMIN_ID HELPER_ID bot from_user ev c).1 = (Ok tt, c)) evs.
Proof.
  induction 1 as [|ev evs Hrej _ [IHfeed IHall]]; [by split|].
  pose proof (rejected_step bot from_user ev c Hrej) as Hstep.
  split.
  - simpl. rewrite Hstep. simpl. exact IHfeed.
  - constructor; [by rewrite Hstep|exact IHall].
Qed.

(** The state of the add-work-group flow does not advance and keeps the name
    when no spreadsheet target exists yet: this answer is not a rejection of
    the input (the name passed the length check and is stored). *)
Lemma group_name_without_sheets (from_user : Z) (t : string) (c : Ctx W) :
  is_admin ADMIN_ID (roles c) from_user = true ->
  3 <= len (strip t) ->
  get_all_google_sheets (world c) = [] ->
  process_group_name ADMIN_ID from_user (Some t) c
    = (Ok tt,
       mkCtx (mkFSM (fsm_state (fsm c))
                    (<["temp_group_name" := VStr (strip t)]> (fsm_data (fsm c))))
             (roles c) (world c),
       [Answer NoSheetsYet]).
Proof.
  intros Hadm Hlen Hsheets. unfold_handlers; run_handler. rewrite Hadm. cbn [negb].
  assert (is_empty (strip t) || (len (strip t) <? 3) = false) as ->.
  { apply orb_false_iff. split; [|lia]. destruct (strip t); [|done].
    unfold len in Hlen. simpl in Hlen. lia. }
  rewrite Hsheets. reflexivity.
Qed.

(** C8 (as amended): for an administrator's text at the first step of the
    add-work-group flow, with [link] the stripped text:
    - if [link] matches none of the three patterns, the input is rejected
      and the session, the role sets and the stored data are unchanged;
    - if it matches the link pattern with sub-topic, the handler stores the
      negative group id [int("-100" + digits)] and the sub-topic id and
      moves to the name step;
    - if it matches only the link pattern without sub-topic, it stores the
      negative group id and no sub-topic;
    - if it matches only the bare-number pattern, [int(link)] is defined
      and, when it is not zero, is stored as the group id (negative only if
      the text carries a minus sign) with no sub-topic. *)
Theorem group_link_step (from_user : Z) (t : string) (c : Ctx W) :
  is_admin ADMIN_ID (roles c) from_user = true ->
  let link := strip t in
  let run := process_group_link ADMIN_ID from_user (Some t) c in
  (match_channel_topic link = None ->
   match_channel_no_topic link = None ->
   match_numeric_id link = false ->
   run = (Ok tt, c, [Answer (Error BadLink)]))
  /\ (forall g1 g2, match_channel_topic link = Some (g1, g2) ->
      exists group_id topic_id,
        py_int ("-100" +:+ g1) = Some group_id /\ py_int g2 = Some topic_id
        /\ (group_id < 0) /\ (0 <= topic_id)
        /\ run = group_link_accepted c group_id (VInt topic_id))
  /\ (forall g1, match_channel_topic link = None ->
      match_channel_no_topic link = Some g1 ->
      exists group_id,
        py_int ("-100" +:+ g1) = Some group_id /\ (group_id < 0)
        /\ run = group_link_accepted c group_id VNone)
  /\ (match_channel_topic link = None ->
      match_channel_no_topic link = None ->
      match_numeric_id link = true ->
      exists group_id,
        py_int link = Some group_id
        /\ (group_id <> 0 -> run = group_link_accepted c group_id VNone)).
Proof.
  intros Hadm link run. subst run link.
  unfold_handlers; run_handler. rewrite Hadm. cbn [negb].
  repeat split.
  - intros -> -> ->. reflexivity.
  - intros g1 g2 Hm. rewrite Hm.
    destruct (match_channel_topic_digits _ _ _ Hm) as (H1 & H2 & Hne).
    destruct (py_int_channel g1 H1) as (gid & Hgid & Hneg).
    destruct (py_int_digits g2 H2 Hne) as (tid & Htid & Hpos).
    exists gid, tid. rewrite Hgid, Htid.
    repeat split; [lia|lia|].
    assert ((gid =? 0) = false) as -> by lia. reflexivity.
  - intros g1 -> Hm. rewrite Hm.
    pose proof (match_channel_no_topic_digits _ _ Hm) as H1.
    destruct (py_int_channel g1 H1) as (gid & Hgid & Hneg).
    exists gid. rewrite Hgid. repeat split; [lia|].
    assert ((gid =? 0) = false) as -> by lia. reflexivity.
  - intros -> -> Hm. rewrite Hm.
    destruct (match_numeric_id_int _ Hm) as (gid & Hgid).
    exists gid. rewrite Hgid. split; [done|]. intros Hnz.
    assert ((gid =? 0) = false) as -> by lia. reflexivity.
Qed.

(** C7: for an administrator's text [t], with [code] the stripped text:
    - the first step of the change-access-code flow accepts [code] (stores
      it as the new code and moves to the confirmation step) when it has at
      least 4 characters and differs from the stored code, and rejects it
      otherwise, leaving everything unchanged;
    - the confirmation step rejects [code] when it differs from the new code
      kept in the session: the session stays at its step with its fields and
      the stored code is untouched;
    - when [code] equals the new code, the handler writes it with
      [update_password], clears the session, and, the write reporting
      success, the stored access code is the new code. *)
Theorem change_access_code_flow (from_user : Z) (t : string) (c : Ctx W) :
  is_admin ADMIN_ID (roles c) from_user = true ->
  let code := strip t in
  let stored := get_current_password (world c) in
  (4 <= len code -> code <> stored ->
   process_new_password ADMIN_ID from_user (Some t) c
     = (Ok tt,
        mkCtx (mkFSM (Some (Admin waiting_for_password_confirmation))
                     (<["new_password" := VStr code]> (fsm_data (fsm c))))
              (roles c) (world c),
        [Answer (Prompt waiting_for_password_confirmation)]))
  /\ (len code < 4 \/ code = stored ->
      exists why,
        process_new_password ADMIN_ID from_user (Some t) c
          = (Ok tt, c, [Answer (Error why)]))
  /\ (VStr code <> data_get "new_password" (fsm_data (fsm c)) ->
      process_password_confirmation ADMIN_ID from_user (Some t) c
        = (Ok tt, c, [Answer (Error PasswordMismatch)]))
  /\ (VStr code = data_get "new_password" (fsm_data (fsm c)) ->
      let written := update_password (VStr code) (world c) in
      process_password_confirmation ADMIN_ID from_user (Some t) c
        = (Ok tt, mkCtx cleared (roles c) written.2, [Answer (Outcome written.1)])
      /\ (written.1 = true -> get_current_password written.2 = code)).
Proof.
  intros Hadm code stored. subst code stored.
  assert (Hshort : forall n, is_empty (strip t) || (len (strip t) <? n) = false
                             <-> (n <= len (strip t) /\ strip t <> "")).
  { intros n. rewrite orb_false_iff, Z.ltb_ge. destruct (strip t); simpl; intuition done. }
  split; [|split; [|split]].
  - intros Hlen Hne. unfold_handlers; run_handler. rewrite Hadm. cbn [negb].
    assert (is_empty (strip t) || (len (strip t) <? 4) = false) as ->.
    { apply Hshort. split; [done|]. intros E. rewrite E in Hlen. unfold len in Hlen.
      simpl in Hlen. lia. }
    apply String.eqb_neq in Hne as ->. reflexivity.
  - intros Hbad. unfold_handlers; run_handler. rewrite Hadm. cbn [negb].
    destruct (is_empty (strip t) || (len (strip t) <? 4)) eqn:E.
    + by eexists.
    + apply Hshort in E as [Hlen _]. destruct Hbad as [?|Heq]; [lia|].
      apply String.eqb_eq in Heq as ->. by eexists.
  - intros Hne. unfold_handlers; run_handler. rewrite Hadm. cbn [negb].
    rewrite bool_decide_eq_false_2 by done. reflexivity.
  - intros Heq written. split.
    + unfold_handlers; run_handler. rewrite Hadm. cbn [negb].
      rewrite bool_decide_eq_true_2 by done. cbn [negb]. rewrite <- Heq.
      subst written. by destruct (update_password _ _).
    + intros Hok. subst written.
      destruct (update_password _ _) as [ok w'] eqn:Hw.
      simpl in *. subst ok. by eapply update_password_stored.
Qed.

(** ** Broadcast *)

Lemma due_progress_S s n :
  due_progress s (S n)
  = ((if (s + 1) mod 10 =? 0 then [s + 1] else []) ++ due_progress (s + 1) n)%list.
Proof.
  unfold due_progress. cbn [seq map List.filter].
  rewrite <- seq_shift, map_map.
  replace (s + Z.of_nat 1) with (s + 1) by lia.
  rewrite (map_ext (fun k => s + Z.of_nat (S k)) (fun k => s + 1 + Z.of_nat k))
    by (intros; lia).
  by destruct (_ =? 0).
Qed.

Lemma progress_counts_send chat text outs :
  progress_counts (SendMessage chat text :: outs) = progress_counts outs.
Proof. reflexivity. Qed.

Lemma progress_counts_sending total sent errors outs :
  progress_counts (EditText (Sending total sent errors) :: outs)
  = sent :: progress_counts outs.
Proof. reflexivity. Qed.

(** The loop from any position and any counters. *)
Lemma send_loop_spec (bot : Bot) (msg : value) (total : Z) (users : list UserRow)
    (i : nat) (s e : Z) (c : Ctx W) :
  let n := length users in
  let ok := delivered bot i n in
  exists outs,
    send_loop bot msg total users i s e c
      = (Ok (s + Z.of_nat ok, e + Z.of_nat (n - ok)), c, outs)
    /\ List.filter is_send outs = map (fun u => SendMessage (u_telegram_id u) msg) users
    /\ progress_counts outs = due_progress s ok
    /\ (ok <= n)%nat.
Proof.
  revert i s e. induction users as [|user rest IH]; intros i s e; cbn zeta.
  - exists []. cbn. rewrite !Z.add_0_r. done.
  - cbn [send_loop length delivered]. unfold send_message, edit_progress. run_handler.
    destruct (delivers bot i) eqn:Hi.
    + destruct (IH (S i) (s + 1) e) as (outs & Hrun & Hsend & Hprog & Hle).
      cbn zeta in Hrun. rewrite due_progress_S.
      set (d := delivered bot (S i) (length rest)) in *.
      replace (s + Z.of_nat (1 + d)) with (s + 1 + Z.of_nat d) by lia.
      replace (S (length rest) - (1 + d))%nat with (length rest - d)%nat by lia.
      destruct ((s + 1) mod 10 =? 0) eqn:Hten.
      * destruct (progress_shown bot i); rewrite Hrun; eexists;
          (split; [reflexivity|]);
          cbn [app List.filter is_send map];
          rewrite progress_counts_send, progress_counts_sending, Hsend, Hprog;
          (split; [done|split; [done|lia]]).
      * rewrite Hrun. eexists. split; [reflexivity|].
        cbn [app List.filter is_send map].
        rewrite progress_counts_send, Hsend, Hprog. split; [done|split; [done|lia]].
    + destruct (IH (S i) s (e + 1)) as (outs & Hrun & Hsend & Hprog & Hle).
      cbn zeta in Hrun.
      set (d := delivered bot (S i) (length rest)) in *.
      change (0 + d)%nat with d.
      replace (e + Z.of_nat (S (length rest) - d))
        with (e + 1 + Z.of_nat (length rest - d)) by lia.
      rewrite Hrun. eexists. split; [reflexivity|].
      cbn [app List.filter is_send map].
      rewrite progress_counts_send, Hsend, Hprog. split; [done|split; [done|lia]].
Qed.

Lemma send_loop_ignores_progress (deliv shown shown' : nat -> bool) (msg : value)
    (total : Z) (users : list UserRow) (i : nat) (s e : Z) (c : Ctx W) :
  send_loop (mkBot deliv shown) msg total users i s e c
  = send_loop (mkBot deliv shown') msg total users i s e c.
Proof.
  revert i s e. induction users as [|user rest IH]; intros i s e; [done|].
  cbn [send_loop]. unfold send_message, edit_progress. run_handler.
  cbn [delivers progress_shown].
  destruct (deliv i); [|by rewrite IH].
  destruct (_ =? 0); [|by rewrite IH].
  destruct (shown i), (shown' i); by rewrite IH.
Qed.

(** C4: for every message, every snapshot of recipients and every pattern of
    delivery failures, the send loop attempts one delivery per recipient, in
    snapshot order; a failed delivery is counted as an error and the loop
    goes on; it ends with sent = number of successful deliveries, errors =
    number of failed ones, so sent + errors = total = len(recipients) and
    0 <= sent <= total.  For a recipient list that is not empty the handler
    then shows the final report with these three numbers and clears the
    session. *)
Theorem broadcast_counts (bot : Bot) (msg : value) (users : list UserRow)
    (from_user : Z) (c : Ctx W) :
  let total := Z.of_nat (length users) in
  exists sent errors outs,
    send_loop bot msg total users 0 0 0 c = (Ok (sent, errors), c, outs)
    /\ List.filter is_send outs = map (fun u => SendMessage (u_telegram_id u) msg) users
    /\ sent = Z.of_nat (delivered bot 0 (length users))
    /\ errors = Z.of_nat (length users - delivered bot 0 (length users))
    /\ sent + errors = total
    /\ (0 <= sent <= total)
    /\ (is_admin ADMIN_ID (roles c) from_user = true ->
        data_get "broadcast_message" (fsm_data (fsm c)) = msg ->
        truthy msg = true ->
        get_all_users (world c) = users ->
        users <> [] ->
        confirm_broadcast ADMIN_ID bot from_user c
          = (Ok tt, mkCtx cleared (roles c) (world c),
             EditText (Sending total 0 0)
             :: outs ++ [EditText (Finished total sent errors
                                     (Qmake sent (Z.to_pos total) * 100)%Q); Ack])).
Proof.
  intros total.
  destruct (send_loop_spec bot msg total users 0 0 0 c)
    as (outs & Hrun & Hsend & _ & Hle).
  cbn zeta in Hrun, Hle. rewrite !Z.add_0_l in Hrun.
  eexists _, _, outs. split; [exact Hrun|]. split; [exact Hsend|].
  split; [reflexivity|]. split; [reflexivity|]. subst total.
  split; [lia|]. split; [lia|].
  intros Hadm Hmsg Htruthy Husers Hne.
  unfold_handlers; run_handler. rewrite Hadm. cbn [negb].
  rewrite Hmsg, Htruthy. cbn [negb]. rewrite Husers, Hrun.
  assert ((Z.of_nat (length users) =? 0) = false) as ->.
  { destruct users; [done|]. simpl. lia. }
  reflexivity.
Qed.

(** C1 (what the code does on the input of the claim): with no registered
    user, the confirmed broadcast raises ZeroDivisionError while formatting
    the final report: no report is shown and the session is not cleared. *)
Theorem broadcast_to_nobody (bot : Bot) (from_user : Z) (c : Ctx W) :
  is_admin ADMIN_ID (roles c) from_user = true ->
  truthy (data_get "broadcast_message" (fsm_data (fsm c))) = true ->
  get_all_users (world c) = [] ->
  confirm_broadcast ADMIN_ID bot from_user c
    = (Raise ZeroDivisionError, c, [EditText (Sending 0 0 0)]).
Proof.
  intros Hadm Htruthy Husers.
  unfold_handlers; run_handler. rewrite Hadm. cbn [negb].
  rewrite Htruthy. cbn [negb]. rewrite Husers. reflexivity.
Qed.

(** C5 (as amended): a progress edit is attempted exactly when a delivery
    succeeds and brings the number of successful deliveries to a multiple
    of 10 (failed deliveries do not count towards the cadence), and whether
    these edits succeed or fail changes neither the deliveries attempted
    nor the counts. *)
Theorem progress_cadence (deliv shown shown' : nat -> bool) (msg : value)
    (users : list UserRow) (c : Ctx W) :
  let total := Z.of_nat (length users) in
  exists sent errors outs,
    send_loop (mkBot deliv shown) msg total users 0 0 0 c = (Ok (sent, errors), c, outs)
    /\ progress_counts outs = due_progress 0 (Z.to_nat sent)
    /\ send_loop (mkBot deliv shown') msg total users 0 0 0 c
       = (Ok (sent, errors), c, outs).
Proof.
  intros total.
  destruct (send_loop_spec (mkBot deliv shown) msg total users 0 0 0 c)
    as (outs & Hrun & _ & Hprog & _).
  cbn zeta in Hrun, Hprog. rewrite !Z.add_0_l in Hrun.
  eexists _, _, outs. split; [exact Hrun|]. split.
  - by rewrite Nat2Z.id.
  - by rewrite <- (send_loop_ignores_progress deliv shown shown').
Qed.

End HandlerFacts.

(** ** Concrete runs

    The primary administrator is 1, the primary approver is 2, and the
    collaborators are the in-memory stand-in. *)

Definition at_step (s : AdminStates) (r : Roles) : Ctx Memory :=
  mkCtx (mkFSM (Some (Admin s)) ∅) r empty_memory.

Definition quiet_bot : Bot := mkBot (fun _ => true) (fun _ => true).

(** Witness of C3: 5 was made an administrator; adding it as an approver is
    refused. *)
Lemma roles_invariant_witness :
  is_admin 1 (run_ops 1 2 [AddAdmin 5] initial_roles) 5 = true
  /\ add_approver 1 2 5 (run_ops 1 2 [AddAdmin 5] initial_roles)
     = (false, run_ops 1 2 [AddAdmin 5] initial_roles).
Proof.
  split; [vm_compute; reflexivity|].
  apply (roles_invariant 1 2 [AddAdmin 5] 5). vm_compute. reflexivity.
Defined.

(** Counterexample to C3 as stated: 5 is added as an approver and then as an
    administrator; it is now an administrator and a member of APPROVERS. *)
Lemma approver_promoted_to_admin :
  let r := run_ops 1 2 [AddApprover 5; AddAdmin 5] initial_roles in
  is_admin 1 r 5 = true /\ bool_decide (5 ∈ APPROVERS r) = true /\ 5 ∈ APPROVERS r.
Proof.
  cbn zeta. split; [vm_compute; reflexivity|].
  split; [vm_compute; reflexivity|].
  apply (bool_decide_eq_true_1 (5 ∈ _)). vm_compute. reflexivity.
Qed.

(** Witness of C6. *)
Lemma failed_admin_update_witness :
  fst (add_admin 1 1 initial_roles) = false
  /\ fst (remove_admin 9 initial_roles) = false
  /\ ADDITIONAL_ADMINS (snd (add_admin 1 1 initial_roles)) = ADDITIONAL_ADMINS initial_roles
  /\ ADDITIONAL_ADMINS (snd (remove_admin 9 initial_roles)) = ADDITIONAL_ADMINS initial_roles.
Proof.
  split; [vm_compute; reflexivity|]. split; [vm_compute; reflexivity|].
  destruct (failed_admin_update 1 2 [AddAdmin 5] initial_roles 1) as (_ & Hadd & _).
  destruct (failed_admin_update 1 2 [AddAdmin 5] initial_roles 9) as (_ & _ & Hrem).
  split; [apply Hadd|apply Hrem]; vm_compute; reflexivity.
Defined.

(** Witness of C2: user 7 holds no role and writes at the approver-id
    step. *)
Lemma denied_input_witness :
  message_handler 1 2 waiting_for_new_approver_id = Some (process_new_approver_id 1 2)
  /\ has_required_role 1 waiting_for_new_approver_id initial_roles 7 = false
  /\ process_new_approver_id 1 2 7 (Some "5")
       (at_step waiting_for_new_approver_id initial_roles)
     = (Ok tt, mkCtx cleared initial_roles empty_memory, [Answer NoPermission]).
Proof.
  split; [reflexivity|]. split; [vm_compute; reflexivity|].
  apply (denied_input 1 2 quiet_bot waiting_for_new_approver_id
           (process_new_approver_id 1 2) 7 (Some "5") ""
           (at_step waiting_for_new_approver_id initial_roles)).
  - reflexivity.
  - vm_compute. reflexivity.
Defined.

(** Counterexample to C2 as stated: 7 is an additional administrator who
    opens the add-approver flow and enters the id 5; the primary
    administrator then removes 7.  The next text of 7 fails the role check:
    at the id step the session loses its step, at the name step it loses its
    step and the stored field. *)
Lemma denied_input_clears_session :
  let r := run_ops 1 2 [AddAdmin 7] initial_roles in
  let opened := (add_approver_start 1 7 (mkCtx cleared r empty_memory)).1.2 in
  let named := (process_new_approver_id 1 2 7 (Some "5") opened).1.2 in
  let demote (c : Ctx Memory) := mkCtx (fsm c) (remove_admin 7 (roles c)).2 (world c) in
  let after_id := (process_new_approver_id 1 2 7 (Some "5") (demote opened)).1.2 in
  let after_name := (process_approver_name 1 2 7 (Some "Bob") (demote named)).1.2 in
  is_admin 1 (roles (demote opened)) 7 = false
  /\ fsm_state (fsm (demote opened)) = Some (Admin waiting_for_new_approver_id)
  /\ fsm_state (fsm after_id) = None
  /\ fsm_state (fsm (demote named)) = Some (Admin waiting_for_approver_name)
  /\ fsm_data (fsm (demote named)) !! "new_approver_id" = Some (VInt 5)
  /\ fsm_state (fsm after_name) = None
  /\ fsm_data (fsm after_name) !! "new_approver_id" = None.
Proof. cbn zeta. repeat split; vm_compute; reflexivity. Qed.

(** Witness of C9: at the approver-id step the administrator sends a word,
    a text with a letter, and the id of an administrator, one after the
    other. *)
Lemma rejected_inputs_witness :
  let c := at_step waiting_for_new_approver_id initial_roles in
  let evs := [Text (Some "abc"); Text (Some "12a"); Text (Some "1")] in
  Forall (fun ev => is_rejection (dispatch 1 2 quiet_bot 1 ev c).2 = true) evs
  /\ feed 1 2 quiet_bot 1 evs c = c.
Proof.
  cbn zeta.
  assert (Hrej : Forall (fun ev =>
            is_rejection (dispatch 1 2 quiet_bot 1 ev
              (at_step waiting_for_new_approver_id initial_roles)).2 = true)
            [Text (Some "abc"); Text (Some "12a"); Text (Some "1")]).
  { repeat constructor; vm_compute; reflexivity. }
  split; [exact Hrej|].
  exact (proj1 (rejected_inputs_leave_session 1 2 quiet_bot 1 _ _ Hrej)).
Defined.

(** Witness of C8: the bare id of the spec's scenario. *)
Lemma group_link_step_witness :
  let c := at_step waiting_for_group_link initial_roles in
  is_admin 1 (roles c) 1 = true
  /\ match_numeric_id (strip "-1001234567890") = true
  /\ exists group_id,
       py_int (strip "-1001234567890") = Some group_id
       /\ (group_id <> 0 ->
           process_group_link 1 1 (Some "-1001234567890") c
             = group_link_accepted c group_id VNone).
Proof.
  cbn zeta. split; [vm_compute; reflexivity|]. split; [vm_compute; reflexivity|].
  destruct (group_link_step 1 1 "-1001234567890"
              (at_step waiting_for_group_link initial_roles)) as (_ & _ & _ & Hnum).
  - vm_compute. reflexivity.
  - apply Hnum; vm_compute; reflexivity.
Defined.

(** Counterexample to C8 as stated: the bare number 123 matches the third
    pattern and is stored as the group id, which is positive. *)
Lemma positive_group_id_accepted :
  let c := at_step waiting_for_group_link initial_roles in
  is_admin 1 (roles c) 1 = true
  /\ match_numeric_id "123" = true
  /\ process_group_link 1 1 (Some "123") c = group_link_accepted c 123 VNone
  /\ ~ (123 < 0).
Proof.
  cbn zeta. split; [vm_compute; reflexivity|]. split; [vm_compute; reflexivity|].
  split; [|lia]. vm_compute. reflexivity.
Qed.

(** Witness of C7: the access code is "2024"; the administrator proposes
    "2025". *)
Lemma change_access_code_witness :
  let c := at_step waiting_for_new_password initial_roles in
  is_admin 1 (roles c) 1 = true
  /\ 4 <= len (strip "2025")
  /\ strip "2025" <> get_current_password (world c)
  /\ process_new_password 1 1 (Some "2025") c
     = (Ok tt,
        mkCtx (mkFSM (Some (Admin waiting_for_password_confirmation))
                     (<["new_password" := VStr (strip "2025")]> (fsm_data (fsm c))))
              (roles c) (world c),
        [Answer (Prompt waiting_for_password_confirmation)]).
Proof.
  cbn zeta. split; [vm_compute; reflexivity|]. split; [vm_compute; discriminate|].
  split; [vm_compute; discriminate|].
  destruct (change_access_code_flow 1 1 "2025"
              (at_step waiting_for_new_password initial_roles)) as (Hfirst & _).
  - vm_compute. reflexivity.
  - apply Hfirst; vm_compute; discriminate.
Defined.

(** Ten recipients with distinct Telegram ids. *)
Definition ten_recipients : list UserRow :=
  map recipient [101; 102; 103; 104; 105; 106; 107; 108; 109; 110].

(** Witness of C4: a broadcast to ten recipients. *)
Lemma broadcast_counts_witness :
  let c := mkCtx (mkFSM (Some (Admin waiting_for_broadcast_confirmation))
                        {["broadcast_message" := VStr "hello all"]})
                 initial_roles (mkMemory "2024" ten_recipients [] []) in
  is_admin 1 (roles c) 1 = true
  /\ truthy (VStr "hello all") = true
  /\ ten_recipients <> []
  /\ exists sent errors outs,
       send_loop quiet_bot (VStr "hello all") 10 ten_recipients 0 0 0 c
         = (Ok (sent, errors), c, outs)
       /\ sent + errors = 10
       /\ confirm_broadcast 1 quiet_bot 1 c
          = (Ok tt, mkCtx cleared (roles c) (world c),
             EditText (Sending 10 0 0)
             :: outs ++ [EditText (Finished 10 sent errors (Qmake sent 10 * 100)%Q); Ack]).
Proof.
  cbn zeta. split; [vm_compute; reflexivity|]. split; [reflexivity|].
  split; [discriminate|].
  destruct (broadcast_counts 1 quiet_bot (VStr "hello all") ten_recipients 1
              (mkCtx (mkFSM (Some (Admin waiting_for_broadcast_confirmation))
                            {["broadcast_message" := VStr "hello all"]})
                     initial_roles (mkMemory "2024" ten_recipients [] [])))
    as (sent & errors & outs & Hrun & _ & _ & _ & Hsum & _ & Hreport).
  exists sent, errors, outs. split; [exact Hrun|]. split; [exact Hsum|].
  apply Hreport.
  - vm_compute. reflexivity.
  - vm_compute. reflexivity.
  - reflexivity.
  - reflexivity.
  - discriminate.
Defined.

(** Witness of C1: the administrator confirms a broadcast while no user is
    registered. *)
Lemma broadcast_to_nobody_witness :
  let c := mkCtx (mkFSM (Some (Admin waiting_for_broadcast_confirmation))
                        {["broadcast_message" := VStr "hello all"]})
                 initial_roles empty_memory in
  is_admin 1 (roles c) 1 = true
  /\ truthy (data_get "broadcast_message" (fsm_data (fsm c))) = true
  /\ get_all_users (world c) = []
  /\ confirm_broadcast 1 quiet_bot 1 c
     = (Raise ZeroDivisionError, c, [EditText (Sending 0 0 0)]).
Proof.
  cbn zeta. split; [vm_compute; reflexivity|]. split; [vm_compute; reflexivity|].
  split; [reflexivity|].
  apply (broadcast_to_nobody 1 quiet_bot 1); [vm_compute; reflexivity..|reflexivity].
Defined.

(** Counterexample to C5 as stated: of ten recipients the first cannot be
    reached; ten recipients have been processed, nine deliveries have
    succeeded, and no progress edit has been attempted. *)
Lemma progress_skips_failed :
  let bot := mkBot (fun i => negb (Nat.eqb i 0)) (fun _ => true) in
  let run := send_loop bot (VStr "hello all") 10 ten_recipients 0 0 0
               (mkCtx cleared initial_roles empty_memory) in
  length ten_recipients = 10%nat
  /\ run.1.1 = Ok (9, 1)
  /\ length (List.filter is_send run.2) = 10%nat
  /\ progress_counts run.2 = [].
Proof. cbn zeta. repeat split; vm_compute; reflexivity. Qed.

(** ** The scenarios of the specification *)

(** A malformed locator is rejected and the session stays at the first
    step. *)
Example not_a_link_rejected :
  let c := at_step waiting_for_group_link initial_roles in
  process_group_link 1 1 (Some "not-a-link") c = (Ok tt, c, [Answer (Error BadLink)]).
Proof. vm_compute. reflexivity. Qed.

(** An existing administrator cannot be entered as an approver: the id step
    rejects and the session stays there. *)
Example approver_that_is_admin_rejected :
  let r := run_ops 1 2 [AddAdmin 7] initial_roles in
  let c := at_step waiting_for_new_approver_id r in
  process_new_approver_id 1 2 1 (Some "7") c
  = (Ok tt, c, [Answer (Error IsAdministrator)]).
Proof. vm_compute. reflexivity. Qed.

(** New code "2025"; the confirmation "2024" is rejected and changes
    nothing, the confirmation "2025" commits. *)
Example change_access_code_scenario :
  let c0 := at_step waiting_for_new_password initial_roles in
  let c1 := (process_new_password 1 1 (Some "2025") c0).1.2 in
  let r2 := process_password_confirmation 1 1 (Some "2024") c1 in
  let r3 := process_password_confirmation 1 1 (Some "2025") r2.1.2 in
  fsm_state (fsm c1) = Some (Admin waiting_for_password_confirmation)
  /\ r2.2 = [Answer (Error PasswordMismatch)]
  /\ fsm_state (fsm r2.1.2) = Some (Admin waiting_for_password_confirmation)
  /\ get_current_password (world r2.1.2) = "2024"
  /\ r3.2 = [Answer (Outcome true)]
  /\ fsm_state (fsm r3.1.2) = None
  /\ get_current_password (world r3.1.2) = "2025".
Proof. cbn zeta. repeat split; vm_compute; reflexivity. Qed.

(** 23 recipients of which the 5th and the 17th cannot be reached: 21 sent,
    2 errors, progress shown at 10 and at 20 sent. *)
Example broadcast_23_scenario :
  let bot := mkBot (fun i => negb (Nat.eqb i 4 || Nat.eqb i 16)) (fun _ => true) in
  let users := map (fun k => recipient (Z.of_nat k)) (seq 1 23) in
  let run := send_loop bot (VStr "hello all") 23 users 0 0 0
               (mkCtx cleared initial_roles empty_memory) in
  run.1.1 = Ok (21, 2) /\ progress_counts run.2 = [10; 20].
Proof. cbn zeta. split; vm_compute; reflexivity. Qed.

(** The add-work-group flow with the inputs "-1001234567890", "Main Sales"
    and the choice of the existing target T1 creates the group bound to T1
    and clears the session. *)
Example add_work_group_scenario :
  let t1 := mkSheet 1 "T1" "doc-id" "Sheet1" true in
  let c0 := mkCtx (mkFSM (Some (Admin waiting_for_group_link)) ∅) initial_roles
                  (mkMemory "2024" [] [t1] []) in
  let c1 := (process_group_link 1 1 (Some "-1001234567890") c0).1.2 in
  let c2 := (process_group_name 1 1 (Some "Main Sales") c1).1.2 in
  let r3 := process_group_sheet_selection 1 1 "select_sheet_1" c2 in
  fsm_state (fsm c1) = Some (Admin waiting_for_group_name)
  /\ fsm_state (fsm c2) = Some (Admin waiting_for_group_sheet_selection)
  /\ r3.2 = [EditText (Outcome true); Answer Listing; Ack]
  /\ fsm_state (fsm r3.1.2) = None
  /\ m_groups (world r3.1.2)
     = [mkGroup 1 (-1001234567890) "Main Sales" VNone (VInt 1) ""].
Proof. cbn zeta. repeat split; vm_compute; reflexivity. Qed.

(** * Further properties of the code *)

(** ** Role registry *)

Section RoleRegistryMore.
Variables ADMIN_ID HELPER_ID : Z.

#[local] Abbreviation run' := (run_ops ADMIN_ID HELPER_ID).

Lemma roles_eq (r1 r2 : Roles) :
  ADDITIONAL_ADMINS r1 = ADDITIONAL_ADMINS r2 -> APPROVERS r1 = APPROVERS r2 -> r1 = r2.
Proof. destruct r1, r2; simpl; congruence. Qed.

(** X1: add_admin returns True exactly when the identity was not an
    administrator, add_approver exactly when it was not an approver
    (primary, additional, or administrator); in both cases the identity
    holds the role after the call, whatever was returned. *)
Theorem add_outcome (r : Roles) (id : Z) :
  fst (add_admin ADMIN_ID id r) = negb (is_admin ADMIN_ID r id)
  /\ is_admin ADMIN_ID (snd (add_admin ADMIN_ID id r)) id = true
  /\ fst (add_approver ADMIN_ID HELPER_ID id r)
     = negb (is_approver ADMIN_ID HELPER_ID r id)
  /\ is_approver ADMIN_ID HELPER_ID (snd (add_approver ADMIN_ID HELPER_ID id r)) id = true.
Proof.
  assert (Hin : forall (X : gset Z), bool_decide (id ∈ {[id]} ∪ X) = true).
  { intros X. apply bool_decide_eq_true. set_solver. }
  unfold add_admin, add_approver, is_approver, is_admin.
  rewrite !bool_decide_not.
  destruct (id =? ADMIN_ID), (id =? HELPER_ID),
    (bool_decide (id ∈ ADDITIONAL_ADMINS r)) eqn:Ha,
    (bool_decide (id ∈ APPROVERS r)) eqn:Hp;
    simpl; rewrite ?Hin, ?Ha, ?Hp, ?orb_true_r; done.
Qed.

(** X2: removing an identity right after it was added with success gives
    back the role sets as they were, for administrators and for
    approvers. *)
Theorem add_then_remove (r : Roles) (id : Z) :
  (fst (add_admin ADMIN_ID id r) = true ->
   remove_admin id (snd (add_admin ADMIN_ID id r)) = (true, r))
  /\ (fst (add_approver ADMIN_ID HELPER_ID id r) = true ->
      remove_approver id (snd (add_approver ADMIN_ID HELPER_ID id r)) = (true, r)).
Proof.
  split.
  - unfold add_admin. case_bool_decide as Hin; simpl; [|done].
    destruct (id =? ADMIN_ID); simpl; [done|]. intros _.
    unfold remove_admin. simpl. rewrite bool_decide_eq_true_2 by set_solver.
    f_equal. apply roles_eq; simpl; [set_solver|done].
  - unfold add_approver. case_bool_decide as Hin; simpl; [|done].
    destruct (id =? HELPER_ID); simpl; [done|].
    destruct (is_admin ADMIN_ID r id); simpl; [done|]. intros _.
    unfold remove_approver. simpl. rewrite bool_decide_eq_true_2 by set_solver.
    f_equal. apply roles_eq; simpl; [done|set_solver].
Qed.

(** X3: a registry command changes the roles of no identity other than the
    one it names. *)
Theorem command_frame (op : RoleOp) (r : Roles) (other : Z) :
  other <> op_target op ->
  let r' := snd (run_op ADMIN_ID HELPER_ID op r) in
  is_admin ADMIN_ID r' other = is_admin ADMIN_ID r other
  /\ is_approver ADMIN_ID HELPER_ID r' other = is_approver ADMIN_ID HELPER_ID r other.
Proof.
  intros Hne r'. subst r'.
  assert (Hset : forall (X : gset Z) u, other <> u ->
            bool_decide (other ∈ {[u]} ∪ X) = bool_decide (other ∈ X)
            /\ bool_decide (other ∈ X ∖ {[u]}) = bool_decide (other ∈ X)).
  { intros X u Hu. split; apply bool_decide_ext; set_solver. }
  destruct op as [u|u|u|u]; simpl in *;
    [unfold add_admin|unfold remove_admin|unfold add_approver|unfold remove_approver];
    repeat case_match; simpl; try done;
    unfold is_approver, is_admin; simpl;
    destruct (Hset (ADDITIONAL_ADMINS r) u Hne) as [Ha1 Ha2];
    destruct (Hset (APPROVERS r) u Hne) as [Hp1 Hp2];
    rewrite ?Ha1, ?Ha2, ?Hp1, ?Hp2; done.
Qed.

(** X4: in every reachable state of the registry, an identity removed with
    success from the administrators is no administrator any more, an
    identity removed with success from the approvers keeps approver rights
    only if it is an administrator, and remove_approver refuses the primary
    approver. *)
Theorem removal_takes_effect (ops : list RoleOp) (id : Z) :
  let r := run' ops initial_roles in
  (fst (remove_admin id r) = true ->
   is_admin ADMIN_ID (snd (remove_admin id r)) id = false)
  /\ (fst (remove_approver id r) = true ->
      is_approver ADMIN_ID HELPER_ID (snd (remove_approver id r)) id
      = is_admin ADMIN_ID r id)
  /\ remove_approver HELPER_ID r = (false, r).
Proof.
  intros r. destruct (roles_ok_run ADMIN_ID HELPER_ID ops) as (Ha & Hh & Hp).
  fold r in Ha, Hh, Hp. repeat split.
  - unfold remove_admin. case_bool_decide as Hin; simpl; [|done]. intros _.
    unfold is_admin; simpl.
    assert (id <> ADMIN_ID) by (intros ->; done).
    rewrite bool_decide_eq_false_2 by set_solver.
    apply orb_false_iff. split; [lia|done].
  - unfold remove_approver. case_bool_decide as Hin; simpl; [|done]. intros _.
    unfold is_approver, is_admin; simpl.
    assert (id <> HELPER_ID) by (intros ->; done).
    rewrite bool_decide_eq_false_2 by set_solver.
    assert ((id =? HELPER_ID) = false) as -> by lia. reflexivity.
  - unfold remove_approver. by rewrite bool_decide_eq_false_2.
Qed.

(** X5: can_approve_reports holds exactly for the primary administrator,
    the additional administrators, the primary approver and the additional
    approvers; it coincides with is_approver, and every administrator can
    approve. *)
Theorem can_approve_reports_spec (r : Roles) (id : Z) :
  (can_approve_reports ADMIN_ID HELPER_ID r id = true
   <-> (id = ADMIN_ID \/ id ∈ ADDITIONAL_ADMINS r \/ id = HELPER_ID \/ id ∈ APPROVERS r))
  /\ can_approve_reports ADMIN_ID HELPER_ID r id = is_approver ADMIN_ID HELPER_ID r id
  /\ (is_admin ADMIN_ID r id = true -> can_approve_reports ADMIN_ID HELPER_ID r id = true).
Proof.
  unfold can_approve_reports, is_approver, is_admin.
  split; [|split].
  - rewrite !orb_true_iff, !Z.eqb_eq, !bool_decide_eq_true. tauto.
  - destruct (id =? ADMIN_ID), (id =? HELPER_ID); repeat case_bool_decide; reflexivity.
  - intros ->. reflexivity.
Qed.

(** X6: get_all_admins lists exactly the administrators, the primary one
    first; in every reachable state it lists nobody twice and has one entry
    more than ADDITIONAL_ADMINS has members. *)
Theorem get_all_admins_spec (ops : list RoleOp) (id : Z) :
  let r := run' ops initial_roles in
  (id ∈ get_all_admins ADMIN_ID r <-> is_admin ADMIN_ID r id = true)
  /\ head (get_all_admins ADMIN_ID r) = Some ADMIN_ID
  /\ NoDup (get_all_admins ADMIN_ID r)
  /\ length (get_all_admins ADMIN_ID r) = S (size (ADDITIONAL_ADMINS r)).
Proof.
  intros r. destruct (roles_ok_run ADMIN_ID HELPER_ID ops) as (Ha & _).
  fold r in Ha. unfold get_all_admins. repeat split.
  - rewrite elem_of_cons, elem_of_elements. intros H.
    apply is_admin_spec. exact H.
  - intros H%is_admin_spec. rewrite elem_of_cons, elem_of_elements. exact H.
  - apply NoDup_cons. split; [by rewrite elem_of_elements|apply NoDup_elements].
Qed.

(** X7: get_all_approvers lists the primary approver, unless HELPER_ID is 0,
    followed by the additional approvers; everybody listed is an approver,
    and in every reachable state nobody is listed twice. *)
Theorem get_all_approvers_spec (ops : list RoleOp) (id : Z) :
  let r := run' ops initial_roles in
  (id ∈ get_all_approvers HELPER_ID r
   <-> ((id = HELPER_ID /\ HELPER_ID <> 0) \/ id ∈ APPROVERS r))
  /\ (id ∈ get_all_approvers HELPER_ID r -> is_approver ADMIN_ID HELPER_ID r id = true)
  /\ NoDup (get_all_approvers HELPER_ID r).
Proof.
  intros r. destruct (roles_ok_run ADMIN_ID HELPER_ID ops) as (_ & Hh & _).
  fold r in Hh. unfold get_all_approvers.
  assert (Hmem : id ∈ ((if negb (HELPER_ID =? 0) then [HELPER_ID] else []) ++ elements (APPROVERS r))%list
                 <-> ((id = HELPER_ID /\ HELPER_ID <> 0) \/ id ∈ APPROVERS r)).
  { rewrite elem_of_app, elem_of_elements.
    destruct (Z.eqb_spec HELPER_ID 0); simpl.
    - rewrite elem_of_nil. intuition.
    - rewrite list_elem_of_singleton. intuition. }
  split; [exact Hmem|]. split.
  - intros [[-> _]|Hin]%Hmem; apply is_approver_spec; auto.
  - destruct (HELPER_ID =? 0); simpl; [apply NoDup_elements|].
    apply NoDup_cons. split; [by rewrite elem_of_elements|apply NoDup_elements].
Qed.

End RoleRegistryMore.

(** ** Text *)

#[local] Arguments String.append !_ _ / : simpl nomatch.

Lemma append_empty_r s : s +:+ "" = s.
Proof. induction s; simpl; congruence. Qed.

Lemma append_assoc (a b c : string) : (a +:+ b) +:+ c = a +:+ (b +:+ c).
Proof. induction a; simpl; congruence. Qed.

Lemma lstrip_head s :
  lstrip s = "" \/ exists c t, lstrip s = String c t /\ is_space c = false.
Proof.
  induction s as [|c t IH]; simpl; [by left|].
  destruct (is_space c) eqn:Hc; [exact IH|]. right. eauto.
Qed.

Lemma lstrip_empty s : lstrip s = "" -> all_chars is_space s = true.
Proof.
  induction s as [|c t IH]; simpl; [done|].
  destruct (is_space c); [exact IH|done].
Qed.

Lemma rstrip_empty s : rstrip s = "" -> all_chars is_space s = true.
Proof.
  induction s as [|c t IH]; simpl; [done|].
  destruct (rstrip t); [|done]. destruct (is_space c); [auto|done].
Qed.

Lemma rstrip_idempotent s : rstrip (rstrip s) = rstrip s.
Proof.
  induction s as [|c t IH]; simpl; [done|].
  destruct (rstrip t) as [|c' t'] eqn:Ht.
  - destruct (is_space c) eqn:Hc; simpl; [done|]. by rewrite Hc.
  - simpl in *. by rewrite IH.
Qed.

Lemma rstrip_keeps_head c t :
  is_space c = false -> exists t', rstrip (String c t) = String c t'.
Proof.
  intros Hc. simpl. destruct (rstrip t); [rewrite Hc|]; eauto.
Qed.

(** [s.strip().strip() == s.strip()] *)
Lemma strip_idempotent s : strip (strip s) = strip s.
Proof.
  unfold strip. destruct (lstrip_head s) as [->|(c & t & -> & Hc)]; [done|].
  destruct (rstrip_keeps_head c t Hc) as [t' Ht']. rewrite Ht'.
  simpl lstrip. rewrite Hc, <- Ht'. apply rstrip_idempotent.
Qed.

Lemma strip_empty_iff s : strip s = "" <-> all_chars is_space s = true.
Proof.
  split.
  - unfold strip. intros H. apply lstrip_empty.
    destruct (lstrip_head s) as [->|(c & t & E & Hc)]; [done|].
    rewrite E in H. destruct (rstrip_keeps_head c t Hc) as [t' Ht']. congruence.
  - intros H. unfold strip. by rewrite (lstrip_spaces _ H).
Qed.

Lemma strip_no_space s :
  all_chars (fun c => negb (is_space c)) s = true -> strip s = s.
Proof.
  intros H. unfold strip.
  assert (lstrip s = s) as ->.
  { destruct s as [|c t]; [done|]. simpl in *.
    apply andb_true_iff in H as [->%negb_true_iff _]. done. }
  rewrite <- (append_empty_r s) at 1. by apply rstrip_app.
Qed.

Lemma digit_val_char d : 0 <= d <= 9 -> digit_val (digit_char d) = Some d.
Proof.
  intros H. assert (d = 0 \/ d = 1 \/ d = 2 \/ d = 3 \/ d = 4 \/ d = 5 \/ d = 6
                    \/ d = 7 \/ d = 8 \/ d = 9) as Hd by lia.
  repeat (destruct Hd as [->|Hd]; [reflexivity|]). by subst.
Qed.

Lemma dec_digits_digits fuel n acc :
  0 <= n -> all_chars is_digit acc = true ->
  all_chars is_digit (dec_digits fuel n acc) = true.
Proof.
  revert n acc. induction fuel as [|fuel IH]; intros n acc Hn Hacc; simpl; [done|].
  assert (Hd : all_chars is_digit (String (digit_char (n mod 10)) acc) = true).
  { simpl. unfold is_digit at 1. rewrite digit_val_char by (pose proof (Z.mod_pos_bound n 10); lia).
    done. }
  destruct (n <? 10); [done|]. apply IH; [apply Z.div_pos; lia|done].
Qed.

Lemma dec_digits_nonempty fuel n acc : dec_digits (S fuel) n acc <> "".
Proof.
  revert n acc. induction fuel as [|fuel IH]; intros n acc; simpl.
  - by destruct (n <? 10).
  - destruct (n <? 10); [done|]. apply IH.
Qed.

(** Reading the digits written for [n] gives [n] back. *)
Lemma int_digits_dec fuel n acc :
  0 <= n < 2 ^ Z.of_nat fuel ->
  int_digits (dec_digits fuel n acc) 0 = int_digits acc n.
Proof.
  revert n acc. induction fuel as [|fuel IH]; intros n acc Hn.
  - simpl. change (2 ^ Z.of_nat 0) with 1 in Hn.
    assert (n = 0) as -> by lia. done.
  - cbn [dec_digits].
    assert (Hstep : int_digits (String (digit_char (n mod 10)) acc) (n / 10)
                    = int_digits acc n).
    { simpl. rewrite digit_val_char by (pose proof (Z.mod_pos_bound n 10); lia).
      f_equal. pose proof (Z.div_mod n 10). lia. }
    destruct (Z.ltb_spec n 10).
    + rewrite Z.mod_small by lia. simpl. rewrite digit_val_char by lia. done.
    + rewrite IH; [exact Hstep|].
      rewrite Nat2Z.inj_succ, Z.pow_succ_r in Hn by lia.
      split; [apply Z.div_pos; lia|].
      apply Z.div_lt_upper_bound; lia.
Qed.

Lemma int_unsigned_int_digits s :
  (exists c t, s = String c t /\ is_digit c = true) ->
  int_unsigned s = int_digits s 0.
Proof.
  intros (c & t & -> & Hc). simpl. unfold is_digit in Hc.
  by destruct (digit_val c).
Qed.

Lemma digits_head s :
  all_chars is_digit s = true -> s <> "" ->
  exists c t, s = String c t /\ is_digit c = true.
Proof.
  destruct s as [|c t]; [done|]. simpl. intros [? _]%andb_true_iff _. eauto.
Qed.

Lemma log2_fuel n : 0 <= n -> 0 <= n < 2 ^ Z.of_nat (S (Z.to_nat (Z.log2 n))).
Proof.
  intros Hn. split; [done|].
  rewrite Nat2Z.inj_succ, Z2Nat.id by apply Z.log2_nonneg.
  destruct (Z.eq_dec n 0) as [->|]; [done|].
  apply Z.log2_spec. lia.
Qed.

(** The decimal text of a number: an optional minus sign and digits. *)
Lemma py_str_shape z :
  exists ds, all_chars is_digit ds = true /\ ds <> ""
             /\ int_digits ds 0 = Some (Z.abs z)
             /\ py_str z = (if z <? 0 then "-" else "") +:+ ds.
Proof.
  unfold py_str. destruct (Z.ltb_spec z 0).
  - exists (dec_digits (S (Z.to_nat (Z.log2 (- z)))) (- z) "").
    split; [apply dec_digits_digits; [lia|done]|].
    split; [apply dec_digits_nonempty|]. split; [|reflexivity].
    rewrite int_digits_dec by (apply log2_fuel; lia). cbn [int_digits]. f_equal. lia.
  - exists (dec_digits (S (Z.to_nat (Z.log2 z))) z "").
    split; [apply dec_digits_digits; [lia|done]|].
    split; [apply dec_digits_nonempty|]. split; [|reflexivity].
    rewrite int_digits_dec by (apply log2_fuel; lia). cbn [int_digits]. f_equal. lia.
Qed.

(** [int(str(z)) == z] *)
Lemma py_int_py_str z : py_int (py_str z) = Some z.
Proof.
  destruct (py_str_shape z) as (ds & Hd & Hne & Hval & ->).
  unfold py_int.
  pose proof (strip_signed_digits (z <? 0) ds "" Hd Hne eq_refl) as Hs.
  rewrite append_empty_r in Hs. rewrite Hs. clear Hs.
  destruct (digits_head ds Hd Hne) as (c & t & -> & Hc).
  assert (Hu : int_unsigned (String c t) = Some (Z.abs z)).
  { rewrite int_unsigned_int_digits by eauto. done. }
  destruct (digit_not_sign _ Hc) as [Hm Hp].
  destruct (Z.ltb_spec z 0); cbn [String.append].
  - rewrite Ascii.eqb_refl, Hu. simpl. f_equal. lia.
  - rewrite Hm, Hp, Hu. f_equal. lia.
Qed.

Lemma digits_no_underscore s : all_chars is_digit s = true -> has_underscore s = false.
Proof.
  induction s as [|c t IH]; simpl; [done|]. intros [Hc Ht]%andb_true_iff.
  rewrite (IH Ht), orb_false_r. apply Ascii.eqb_neq. intros ->. discriminate Hc.
Qed.

Lemma py_str_no_underscore z : has_underscore (py_str z) = false.
Proof.
  destruct (py_str_shape z) as (ds & Hd & _ & _ & ->).
  destruct (z <? 0); simpl; by apply digits_no_underscore.
Qed.

Lemma has_underscore_app a b : has_underscore (a +:+ b) = has_underscore a || has_underscore b.
Proof. induction a as [|c t IH]; simpl; [done|]. by rewrite IH, orb_assoc. Qed.

(** [(p + "_" + s).split("_")[-1] == s] when [s] has no underscore. *)
Lemma last_segment_app p s :
  has_underscore s = false -> last_segment (p +:+ String "_" s) = s.
Proof.
  intros Hs. induction p as [|c t IH]; simpl.
  - by rewrite Hs.
  - rewrite has_underscore_app. simpl. by rewrite orb_true_r.
Qed.

Lemma prefix_app p s : String.prefix p (p +:+ s) = true.
Proof.
  induction p as [|c t IH]; simpl; [by destruct s|].
  destruct (ascii_dec c c); [exact IH|done].
Qed.

Lemma strip_prefix_app p s : strip_prefix p (p +:+ s) = Some s.
Proof.
  induction p as [|c t IH]; simpl; [by destruct s|]. by rewrite Ascii.eqb_refl.
Qed.

Lemma span_exact f run rest :
  all_chars f run = true ->
  (rest = "" \/ exists c t, rest = String c t /\ f c = false) ->
  span f (run +:+ rest) = (run, rest).
Proof.
  intros Hrun Hrest. induction run as [|c t IH]; simpl.
  - destruct Hrest as [->|(c & t & -> & Hc)]; simpl; [done|]. by rewrite Hc.
  - simpl in Hrun. apply andb_true_iff in Hrun as [-> Ht]. by rewrite (IH Ht).
Qed.

Lemma search_sheet_url_id s d :
  search_sheet_url s = Some d -> d <> "" /\ all_chars is_id_char d = true.
Proof.
  induction s as [|c t IH]; simpl.
  - unfold sheet_url_here. simpl. done.
  - destruct (sheet_url_here (String c t)) as [g|] eqn:Hhere; [|exact IH].
    intros [= ->]. unfold sheet_url_here in Hhere.
    destruct (strip_prefix _ _) as [rest|]; [|done].
    pose proof (span_all is_id_char rest) as Hall.
    destruct (span is_id_char rest) as [g rest']. simpl in Hall.
    destruct g; [done|]. by injection Hhere as <-.
Qed.

(** ** The keyboard of the workers list *)

Lemma number_buttons_lookup workers i k w :
  workers !! k = Some w ->
  number_buttons workers i !! k
  = Some (mkButton (NumberLabel (i + Z.of_nat k))
                   ("worker_select_" +:+ py_str (u_telegram_id w))).
Proof.
  revert i k. induction workers as [|x rest IH]; intros i k; [done|].
  destruct k as [|k]; simpl.
  - intros [= ->]. by rewrite Z.add_0_r.
  - intros H. rewrite (IH (i + 1) k H). do 3 f_equal. lia.
Qed.

Lemma number_buttons_length workers i : length (number_buttons workers i) = length workers.
Proof. revert i. induction workers; intros i; simpl; [done|]. by rewrite IHworkers. Qed.

Lemma rows_of_concat {A} fuel n (l : list A) :
  (0 < n)%nat -> (length l <= fuel)%nat -> concat (rows_of fuel n l) = l.
Proof.
  intros Hn. revert l. induction fuel as [|fuel IH]; intros l Hl.
  - destruct l; [done|simpl in Hl; lia].
  - destruct l as [|x l']; [done|]. cbn [rows_of concat].
    rewrite IH; [apply take_drop|].
    rewrite length_drop. simpl in *. lia.
Qed.

Lemma rows_of_bounds {A} fuel n (l : list A) :
  (0 < n)%nat ->
  Forall (fun row => 0 < length row <= n)%nat (rows_of fuel n l).
Proof.
  intros Hn. revert l. induction fuel as [|fuel IH]; intros l; [constructor|].
  destruct l as [|x l']; [constructor|]. cbn [rows_of]. constructor; [|apply IH].
  rewrite length_take. simpl. lia.
Qed.

Lemma rows_of_full {A} fuel n (l : list A) i row :
  rows_of fuel n l !! i = Some row ->
  (S i < length (rows_of fuel n l))%nat ->
  length row = n.
Proof.
  revert l i. induction fuel as [|fuel IH]; intros l i; [done|].
  destruct l as [|x l']; [done|]. cbn [rows_of]. destruct i as [|i]; simpl.
  - intros [= <-] Hlen. rewrite length_take.
    destruct fuel as [|fuel']; [simpl in Hlen; lia|].
    destruct (drop n (x :: l')) eqn:Hd; [simpl in Hlen; lia|].
    apply (f_equal length) in Hd. rewrite length_drop in Hd. simpl in *. lia.
  - intros Hrow Hlen. apply (IH _ _ Hrow). lia.
Qed.

Lemma pagination_buttons_cons page total_pages :
  exists b bs, pagination_buttons page total_pages = b :: bs /\ (length bs <= 2)%nat.
Proof.
  unfold pagination_buttons.
  destruct (1 <? page), (page <? total_pages); simpl; eauto 10.
Qed.

Lemma keyboard_concat workers page total_pages :
  concat (get_workers_list_keyboard_with_pagination workers page total_pages)
  = (number_buttons workers 1 ++ pagination_buttons page total_pages
     ++ [mkButton AdminMenuLabel "admin_menu"])%list.
Proof.
  unfold get_workers_list_keyboard_with_pagination.
  destruct (pagination_buttons_cons page total_pages) as (b & bs & -> & _).
  rewrite !concat_app, rows_of_concat by lia. simpl. by rewrite app_nil_r.
Qed.

(** X8: the keyboard of the workers list holds, row after row, one numbered
    button per worker, then the page buttons, then the button back to the
    menu; no row is empty or longer than 5 buttons, and every row of
    numbered buttons but the last has exactly 5. *)
Theorem workers_keyboard_layout (workers : list UserRow) (page total_pages : Z)
    (i : nat) (row : list Button) :
  let numbered := number_buttons workers 1 in
  let rows := rows_of (length numbered) 5 numbered in
  let keyboard := get_workers_list_keyboard_with_pagination workers page total_pages in
  concat keyboard
    = (numbered ++ pagination_buttons page total_pages
       ++ [mkButton AdminMenuLabel "admin_menu"])%list
  /\ length numbered = length workers
  /\ Forall (fun row => 1 <= length row <= 5)%nat keyboard
  /\ last keyboard = Some [mkButton AdminMenuLabel "admin_menu"]
  /\ (rows !! i = Some row -> (S i < length rows)%nat -> length row = 5%nat).
Proof.
  intros numbered rows keyboard. subst keyboard rows.
  split; [apply keyboard_concat|].
  unfold get_workers_list_keyboard_with_pagination. fold numbered.
  destruct (pagination_buttons_cons page total_pages) as (b & bs & Hpag & Hlen).
  rewrite Hpag.
  split; [|split; [|split]].
  - apply number_buttons_length.
  - rewrite !Forall_app. split; [|split].
    + eapply Forall_impl; [apply (rows_of_bounds _ 5); lia|]. simpl. lia.
    + constructor; [simpl; lia|constructor].
    + constructor; [simpl; lia|constructor].
  - by rewrite !app_assoc, last_snoc.
  - apply rows_of_full.
Qed.

(** X9: the button of the k-th worker (counted from 0) is numbered k + 1,
    its callback data is selected by the filter
    startswith("worker_select_"), and the handler's
    int(data.split("_")[-1]) reads the worker's Telegram id back from it,
    negative ids included. *)
Theorem worker_button_round_trip (workers : list UserRow) (page total_pages : Z)
    (k : nat) (w : UserRow) :
  workers !! k = Some w ->
  exists b,
    number_buttons workers 1 !! k = Some b
    /\ b ∈ concat (get_workers_list_keyboard_with_pagination workers page total_pages)
    /\ b_text b = NumberLabel (Z.of_nat k + 1)
    /\ String.prefix "worker_select_" (b_callback_data b) = true
    /\ callback_last_int (b_callback_data b) = Some (u_telegram_id w).
Proof.
  intros Hw. pose proof (number_buttons_lookup workers 1 k w Hw) as Hb.
  eexists. split; [exact Hb|]. split; [|split; [|split]].
  - rewrite keyboard_concat.
    apply elem_of_app. left. by eapply list_elem_of_lookup_2.
  - simpl. f_equal. lia.
  - apply prefix_app.
  - cbn [b_callback_data]. unfold callback_last_int.
    change ("worker_select_" +:+ py_str (u_telegram_id w))
      with ("worker_select" +:+ String "_" (py_str (u_telegram_id w))).
    rewrite last_segment_app by apply py_str_no_underscore.
    apply py_int_py_str.
Qed.

(** X10: the row of page buttons always holds the page indicator; it holds
    the "previous" button exactly when page > 1 and the "next" button
    exactly when page < total_pages; the page number the handler reads back
    from such a button is page - 1 or page + 1 and, for a page between 1
    and total_pages, again a page between 1 and total_pages. *)
Theorem page_buttons_in_range (page total_pages : Z) (b : Button) :
  let row := pagination_buttons page total_pages in
  mkButton (PageLabel page total_pages) "current_page" ∈ row
  /\ (mkButton PreviousLabel ("workers_page_" +:+ py_str (page - 1)) ∈ row <-> 1 < page)
  /\ (mkButton NextLabel ("workers_page_" +:+ py_str (page + 1)) ∈ row
      <-> page < total_pages)
  /\ (1 <= page <= total_pages -> b ∈ row ->
      b_callback_data b = "current_page"
      \/ (String.prefix "workers_page_" (b_callback_data b) = true
          /\ exists p, callback_last_int (b_callback_data b) = Some p
                       /\ (p = page - 1 \/ p = page + 1)
                       /\ 1 <= p <= total_pages)).
Proof.
  intros row. subst row.
  assert (Hread : forall p, callback_last_int ("workers_page_" +:+ py_str p) = Some p).
  { intros p. unfold callback_last_int.
    change ("workers_page_" +:+ py_str p) with ("workers_page" +:+ String "_" (py_str p)).
    rewrite last_segment_app by apply py_str_no_underscore. apply py_int_py_str. }
  unfold pagination_buttons.
  destruct (Z.ltb_spec 1 page), (Z.ltb_spec page total_pages); cbn [app].
  all: split; [rewrite ?elem_of_cons, ?elem_of_nil; naive_solver|].
  all: split; [rewrite ?elem_of_cons, ?elem_of_nil; naive_solver lia|].
  all: split; [rewrite ?elem_of_cons, ?elem_of_nil; naive_solver lia|].
  all: rewrite ?elem_of_cons, ?elem_of_nil; intros Hrange Hb;
    repeat (destruct Hb as [->|Hb]); try done.
  all: try (by left).
  all: right; split; [apply prefix_app|]; cbn [b_callback_data];
    eexists; split; [apply Hread|lia].
Qed.

(** ** First names (bot.py) *)

Lemma strip_head s :
  strip s = "" \/ exists c t, strip s = String c t /\ is_space c = false.
Proof.
  unfold strip. destruct (lstrip_head s) as [->|(c & t & -> & Hc)]; [by left|].
  right. destruct (rstrip_keeps_head c t Hc) as [t' ->]. eauto.
Qed.

Lemma split_ws_from_head t cur :
  cur <> "" ->
  exists rest,
    split_ws_from t cur = (cur +:+ (span (fun c => negb (is_space c)) t).1) :: rest.
Proof.
  revert cur. induction t as [|c t IH]; intros cur Hcur; simpl.
  - destruct cur; [done|]. simpl. rewrite append_empty_r. eauto.
  - destruct (is_space c); simpl.
    + destruct cur; [done|]. simpl. rewrite append_empty_r. eauto.
    + destruct (IH (cur +:+ String c "")) as [rest Hrest].
      { by destruct cur. }
      rewrite Hrest. destruct (span _ t) as [run rest']. simpl.
      rewrite append_assoc. simpl. eauto.
Qed.

Lemma extract_first_name_span s :
  extract_first_name s = (span (fun c => negb (is_space c)) (strip s)).1.
Proof.
  unfold extract_first_name, split_ws.
  destruct (strip_head s) as [->|(c & t & -> & Hc)]; [done|].
  simpl. rewrite Hc. simpl.
  destruct (split_ws_from_head t (String c "")) as [rest ->]; [done|].
  by destruct (span _ t).
Qed.

(** X11: the first name taken from a text contains no whitespace, is empty
    exactly when the text is blank, starts the stripped text, is the whole
    text when the text has no whitespace, and taking it twice changes
    nothing. *)
Theorem extract_first_name_spec (s : string) :
  let name := extract_first_name s in
  all_chars (fun c => negb (is_space c)) name = true
  /\ (name = "" <-> all_chars is_space s = true)
  /\ String.prefix name (strip s) = true
  /\ (all_chars (fun c => negb (is_space c)) s = true -> name = s)
  /\ extract_first_name name = name.
Proof.
  intros name. subst name. rewrite !extract_first_name_span.
  assert (Hns : forall x,
            all_chars (fun c => negb (is_space c)) x = true ->
            (span (fun c => negb (is_space c)) (strip x)).1 = x).
  { intros x Hx. rewrite strip_no_space by done.
    rewrite <- (append_empty_r x) at 1. rewrite span_exact; auto. }
  pose proof (span_all (fun c => negb (is_space c)) (strip s)) as Hall.
  split; [exact Hall|]. split; [|split; [|split]].
  - rewrite <- strip_empty_iff.
    destruct (strip_head s) as [->|(c & t & -> & Hc)]; [done|].
    simpl. rewrite Hc. simpl. destruct (span _ t). simpl. split; done.
  - rewrite <- (span_app (fun c => negb (is_space c)) (strip s)) at 2.
    apply prefix_app.
  - apply Hns.
  - apply Hns, Hall.
Qed.

(** ** More on the handlers *)

Ltac unfold_starts :=
  unfold add_approver_start, remove_approver_start, add_group_start,
    delete_group_start, add_sheet_start, add_admin_start, remove_admin_start,
    start_password_change, start_broadcast, back_to_admin_menu,
    handle_admin_command.

Section HandlerMore.
Context {W : Type} `{!Collaborators W}.
Variables ADMIN_ID HELPER_ID : Z.

(** X12: a message without text (a photo, a sticker) sent by an authorized
    operator at a text step makes the handler raise AttributeError before
    it touches anything; only the broadcast step reads it as an empty text
    and rejects it as too short. *)
Theorem message_without_text (s : AdminStates) h (from_user : Z) (c : Ctx W) :
  message_handler ADMIN_ID HELPER_ID s = Some h ->
  has_required_role ADMIN_ID s (roles c) from_user = true ->
  h from_user None c
  = if decide (s = waiting_for_broadcast_message)
    then (Ok tt, c, [Answer (Error MessageTooShort)])
    else (Raise AttributeError, c, []).
Proof.
  intros Hh Hrole.
  destruct s; simpl in Hh, Hrole; inversion Hh; subst h; clear Hh;
    unfold_handlers; run_handler; rewrite Hrole; reflexivity.
Qed.

(** X13: a button that opens a flow, or the button back to the menu, does
    nothing but answer with an alert when its sender lacks the role
    (administrator; primary administrator for adding and removing
    administrators); in every case it returns normally and leaves the role
    sets and the stored data alone, and a button that opens a flow never
    touches the fields already in the session. *)
Theorem start_gate (callback_data : string) h (from_user : Z) (c : Ctx W) :
  start_handler ADMIN_ID callback_data = Some h ->
  let allowed :=
    if start_requires_primary callback_data then from_user =? ADMIN_ID
    else is_admin ADMIN_ID (roles c) from_user in
  (allowed = false -> exists m, h from_user c = (Ok tt, c, [Alert m]))
  /\ (h from_user c).1.1 = Ok tt
  /\ roles (h from_user c).1.2 = roles c
  /\ world (h from_user c).1.2 = world c
  /\ (callback_data <> "admin_menu" ->
      fsm_data (fsm (h from_user c).1.2) = fsm_data (fsm c)).
Proof.
  unfold start_handler, start_requires_primary.
  repeat
    (match goal with
     | |- context [String.eqb callback_data ?x] =>
         destruct (String.eqb_spec callback_data x) as [->|?]
     end;
     [intros [= <-];
      repeat match goal with
             | |- context [String.eqb ?a ?b] =>
                 let v := eval vm_compute in (String.eqb a b) in
                 change (String.eqb a b) with v
             end;
      cbn [orb]; unfold_starts; run_handler; crunch;
      repeat split; try done; intros;
      first [ by eauto
            | exfalso;
              match goal with
              | H : negb ?b = false, H' : ?b = false |- _ =>
                  rewrite H' in H; discriminate H
              end ]|]).
  done.
Qed.

(** X14: the two removal flows never announce that the removal failed:
    when a text gets past their checks the registry call succeeds, so the
    failure branch of process_admin_delete and of process_approver_delete
    is never taken. *)
Theorem removal_never_fails (from_user : Z) (text : option string) (c : Ctx W) :
  (Answer (Outcome false) ∉ (process_admin_delete ADMIN_ID from_user text c).2)
  /\ (Answer (Outcome false)
        ∉ (process_approver_delete ADMIN_ID HELPER_ID from_user text c).2).
Proof.
  split; unfold_handlers; run_handler; crunch;
    repeat match goal with
           | H : negb _ = false |- _ => apply negb_false_iff in H
           | H : remove_admin _ _ = _, H' : bool_decide _ = true |- _ =>
               unfold remove_admin in H; rewrite H' in H; injection H as <- <-
           | H : remove_approver _ _ = _, H' : bool_decide _ = true |- _ =>
               unfold remove_approver in H; rewrite H' in H; injection H as <- <-
           end;
    rewrite ?elem_of_cons, ?elem_of_nil; naive_solver.
Qed.

Lemma search_sheet_url_here s g :
  sheet_url_here s = Some g -> search_sheet_url s = Some g.
Proof. intros H. destruct s; cbn [search_sheet_url]; by rewrite H. Qed.

(** X15: at the URL step of the add-spreadsheet flow an administrator's
    text that starts with https://docs.google.com/spreadsheets/d/ followed
    by a document id, ending at the first character that is no letter,
    digit, underscore or hyphen, stores exactly that id; and whatever the
    text, the step either rejects it, changing nothing, or stores an id
    that is not empty and made of such characters only. *)
Theorem sheet_url_step (from_user : Z) (t : string) (c : Ctx W) :
  is_admin ADMIN_ID (roles c) from_user = true ->
  let run := process_google_sheet_url ADMIN_ID from_user (Some t) c in
  (forall id rest,
     strip t = "https://docs.google.com/spreadsheets/d/" +:+ id +:+ rest ->
     all_chars is_id_char id = true -> id <> "" ->
     (rest = "" \/ exists ch rest', rest = String ch rest' /\ is_id_char ch = false) ->
     run = sheet_url_accepted c id)
  /\ (run = (Ok tt, c, [Answer (Error BadSheetUrl)])
      \/ exists d, d <> "" /\ all_chars is_id_char d = true
                   /\ run = sheet_url_accepted c d).
Proof.
  intros Hadm run. subst run. unfold_handlers; run_handler.
  rewrite Hadm. cbn [negb]. split.
  - intros id rest Hstrip Hid Hne Hrest.
    rewrite (search_sheet_url_here _ id); [reflexivity|].
    rewrite Hstrip. unfold sheet_url_here.
    rewrite strip_prefix_app, (span_exact _ _ _ Hid Hrest). by destruct id.
  - destruct (search_sheet_url (strip t)) as [d|] eqn:Hd; [|by left].
    right. exists d. destruct (search_sheet_url_id _ _ Hd). done.
Qed.

Lemma add_approver_fresh r id :
  (id =? HELPER_ID) = false ->
  is_admin ADMIN_ID r id = false ->
  bool_decide (id ∈ APPROVERS r) = false ->
  add_approver ADMIN_ID HELPER_ID id r
  = (true, mkRoles (ADDITIONAL_ADMINS r) ({[id]} ∪ APPROVERS r)).
Proof.
  intros Hh Ha Hp. unfold add_approver.
  rewrite bool_decide_not, Hp, Hh, Ha. reflexivity.
Qed.

Lemma add_admin_fresh r id :
  (id =? ADMIN_ID) = false ->
  bool_decide (id ∈ ADDITIONAL_ADMINS r) = false ->
  add_admin ADMIN_ID id r
  = (true, mkRoles ({[id]} ∪ ADDITIONAL_ADMINS r) (APPROVERS r)).
Proof.
  intros Ha Hp. unfold add_admin. rewrite bool_decide_not, Hp, Ha. reflexivity.
Qed.

(** X16: the add-approver flow run to its end by an administrator.  When the
    id step accepts the text and the name has at least 2 characters, the
    name step adds exactly the id that was entered to APPROVERS, reports
    success and clears the session; the new approver was no approver before
    and is no administrator afterwards. *)
Theorem add_approver_flow (bot : Bot) (from_user : Z) (id_text name : string)
    (c : Ctx W) :
  fsm_state (fsm c) = Some (Admin waiting_for_new_approver_id) ->
  is_admin ADMIN_ID (roles c) from_user = true ->
  let first := dispatch ADMIN_ID HELPER_ID bot from_user (Text (Some id_text)) c in
  first.2 = [Answer (Prompt waiting_for_approver_name)] ->
  2 <= len (strip name) ->
  exists id,
    py_int (strip id_text) = Some id
    /\ is_approver ADMIN_ID HELPER_ID (roles c) id = false
    /\ dispatch ADMIN_ID HELPER_ID bot from_user (Text (Some name)) first.1.2
       = (Ok tt,
          mkCtx cleared
                (mkRoles (ADDITIONAL_ADMINS (roles c)) ({[id]} ∪ APPROVERS (roles c)))
                (world c),
          [Answer (Outcome true); Answer Listing])
    /\ is_admin ADMIN_ID
         (mkRoles (ADDITIONAL_ADMINS (roles c)) ({[id]} ∪ APPROVERS (roles c))) id
       = false.
Proof.
  intros Hstate Hadm first Hfirst Hname.
  assert (Hrun : exists id,
            py_int (strip id_text) = Some id
            /\ (id =? HELPER_ID) = false
            /\ is_admin ADMIN_ID (roles c) id = false
            /\ bool_decide (id ∈ APPROVERS (roles c)) = false
            /\ first = (Ok tt,
                        mkCtx (mkFSM (Some (Admin waiting_for_approver_name))
                                     (<["new_approver_id" := VInt id]> (fsm_data (fsm c))))
                              (roles c) (world c),
                        [Answer (Prompt waiting_for_approver_name)])).
  { subst first. revert Hfirst. unfold dispatch. rewrite Hstate.
    cbn [message_handler]. unfold_handlers; run_handler. rewrite Hadm. cbn [negb].
    destruct (py_int (strip id_text)) as [id|]; [|by intros [=]].
    destruct (id =? HELPER_ID) eqn:Hh; [by intros [=]|].
    destruct (is_admin ADMIN_ID (roles c) id) eqn:Ha; [by intros [=]|].
    destruct (bool_decide (id ∈ APPROVERS (roles c))) eqn:Hp; [by intros [=]|].
    intros _. by exists id. }
  destruct Hrun as (id & Hid & Hh & Ha & Hp & ->). clear Hfirst.
  exists id. split; [done|]. split.
  { unfold is_approver. by rewrite Hh, Hp, Ha. }
  split; [|exact Ha].
  unfold dispatch. cbn [fst snd fsm fsm_state message_handler].
  unfold_handlers; run_handler. rewrite Hadm. cbn [negb].
  assert (is_empty (strip name) || (len (strip name) <? 2) = false) as ->.
  { apply orb_false_iff. split; [|lia]. destruct (strip name); [|done].
    unfold len in Hname. simpl in Hname. lia. }
  cbn [fst snd app fsm roles world fsm_state fsm_data].
  unfold data_get. rewrite lookup_insert_eq.
  cbn [default from_option Datatypes.id fst snd app fsm roles world fsm_state fsm_data].
  rewrite (add_approver_fresh _ _ Hh Ha Hp). reflexivity.
Qed.

(** X17: the add-administrator flow run to its end by the primary
    administrator.  When the id step accepts the text and the name has at
    least 2 characters, the name step adds exactly the id that was entered
    to ADDITIONAL_ADMINS, reports success and clears the session; the
    approver set is not touched. *)
Theorem add_admin_flow (bot : Bot) (id_text name : string) (c : Ctx W) :
  fsm_state (fsm c) = Some (Admin waiting_for_new_admin_id) ->
  let first := dispatch ADMIN_ID HELPER_ID bot ADMIN_ID (Text (Some id_text)) c in
  first.2 = [Answer (Prompt waiting_for_admin_name)] ->
  2 <= len (strip name) ->
  exists id,
    py_int (strip id_text) = Some id
    /\ is_admin ADMIN_ID (roles c) id = false
    /\ dispatch ADMIN_ID HELPER_ID bot ADMIN_ID (Text (Some name)) first.1.2
       = (Ok tt,
          mkCtx cleared
                (mkRoles ({[id]} ∪ ADDITIONAL_ADMINS (roles c)) (APPROVERS (roles c)))
                (world c),
          [Answer (Outcome true); Answer Listing]).
Proof.
  intros Hstate first Hfirst Hname.
  assert (Hrun : exists id,
            py_int (strip id_text) = Some id
            /\ (id =? ADMIN_ID) = false
            /\ bool_decide (id ∈ ADDITIONAL_ADMINS (roles c)) = false
            /\ first = (Ok tt,
                        mkCtx (mkFSM (Some (Admin waiting_for_admin_name))
                                     (<["new_admin_id" := VInt id]> (fsm_data (fsm c))))
                              (roles c) (world c),
                        [Answer (Prompt waiting_for_admin_name)])).
  { subst first. revert Hfirst. unfold dispatch. rewrite Hstate.
    cbn [message_handler]. unfold_handlers; run_handler.
    rewrite Z.eqb_refl. cbn [negb].
    destruct (py_int (strip id_text)) as [id|]; [|by intros [=]].
    destruct (id =? ADMIN_ID) eqn:Ha; [by intros [=]|].
    destruct (bool_decide (id ∈ ADDITIONAL_ADMINS (roles c))) eqn:Hp; [by intros [=]|].
    intros _. by exists id. }
  destruct Hrun as (id & Hid & Ha & Hp & ->). clear Hfirst.
  exists id. split; [done|]. split.
  { unfold is_admin. by rewrite Ha, Hp. }
  unfold dispatch. cbn [fst snd fsm fsm_state message_handler].
  unfold_handlers; run_handler. rewrite Z.eqb_refl. cbn [negb].
  assert (is_empty (strip name) || (len (strip name) <? 2) = false) as ->.
  { apply orb_false_iff. split; [|lia]. destruct (strip name); [|done].
    unfold len in Hname. simpl in Hname. lia. }
  cbn [fst snd app fsm roles world fsm_state fsm_data].
  unfold data_get. rewrite lookup_insert_eq.
  cbn [default from_option Datatypes.id fst snd app fsm roles world fsm_state fsm_data].
  rewrite (add_admin_fresh _ _ Ha Hp). reflexivity.
Qed.

(** The broadcast loop hands the session, the role sets and the outside
    world back as it found them. *)
Lemma send_loop_ctx (bot : Bot) (msg : value) (total : Z) (users : list UserRow)
    (i : nat) (s e : Z) (c : Ctx W) :
  (send_loop bot msg total users i s e c).1.2 = c.
Proof.
  destruct (send_loop_spec bot msg total users i s e c) as (outs & Hrun & _).
  cbn zeta in Hrun. by rewrite Hrun.
Qed.

Lemma topic_nonneg link g1 g2 t :
  match_channel_topic link = Some (g1, g2) -> py_int g2 = Some t -> 0 <= t.
Proof.
  intros Hm Ht. destruct (match_channel_topic_digits _ _ _ Hm) as (_ & H2 & Hne).
  destruct (py_int_digits g2 H2 Hne) as (v & Hv & Hpos). congruence.
Qed.

Ltac prep :=
  repeat match goal with
         | H : negb _ = true |- _ => apply negb_true_iff in H
         | H : negb _ = false |- _ => apply negb_false_iff in H
         | H : (_ || _) = false |- _ => apply orb_false_iff in H; destruct H
         | H : is_empty "" = false |- _ => discriminate H
         | H : Z.eqb _ _ = true |- _ => apply Z.eqb_eq in H
         | H : Z.eqb _ _ = false |- _ => apply Z.eqb_neq in H
         | H : Z.ltb _ _ = false |- _ => apply Z.ltb_ge in H
         | H1 : match_channel_topic _ = Some (_, ?g2), H2 : py_int ?g2 = Some _ |- _ =>
             pose proof (topic_nonneg _ _ _ _ H1 H2); clear H1
         | H : search_sheet_url _ = Some _ |- _ => apply search_sheet_url_id in H
         end.

Ltac ok_leaf :=
  unfold session_ok, group_fields, sheet_name_field in *;
  cbn [fsm_state fsm_data] in *;
  prep;
  repeat (rewrite lookup_insert_eq || rewrite lookup_insert_ne by done);
  pose proof strip_idempotent;
  naive_solver eauto with lia.

(** [crunch], reading the result of the broadcast loop off its
    specification. *)
Ltac crunch_loop :=
  repeat first
    [ progress cbn [fst snd app fsm roles world fsm_state fsm_data negb]
    | match goal with
      | |- context [send_loop ?b ?m ?t ?us ?i ?s ?e ?c] =>
          let outs := fresh "outs" in
          let Hrun := fresh "Hrun" in
          destruct (send_loop_spec b m t us i s e c) as (outs & Hrun & _);
          cbn zeta in Hrun; rewrite Hrun; clear Hrun
      end
    | match goal with
      | |- context [match ?x with _ => _ end] =>
          lazymatch x with
          | context [match _ with _ => _ end] => fail
          | _ => destruct x eqn:?
          end
      end ].

Lemma session_ok_step (bot : Bot) (from_user : Z) (up : Update) (f : FSMContext)
    (r : Roles) (w : W) :
  session_ok ADMIN_ID HELPER_ID from_user f ->
  session_ok ADMIN_ID HELPER_ID from_user
    (fsm (admin_router ADMIN_ID HELPER_ID bot from_user up (mkCtx f r w)).1.2).
Proof.
  intros Hok. destruct up as [|[text|callback_data]]; unfold admin_router.
  - unfold_starts; run_handler; crunch; first [exact Hok|exact I].
  - unfold dispatch. cbn [fsm]. destruct f as [[[s|s]|] d]; cbn [fsm_state];
      try exact Hok.
    destruct s; cbn [message_handler]; try exact Hok;
      unfold_handlers; run_handler; crunch; try first [exact Hok|exact I];
      ok_leaf.
  - destruct (start_handler ADMIN_ID callback_data) as [h|] eqn:Hstart.
    + revert Hstart. unfold start_handler.
      repeat
        (match goal with
         | |- context [String.eqb callback_data ?x] =>
             destruct (String.eqb_spec callback_data x) as [->|?]
         end;
         [intros [= <-]; unfold_starts; run_handler; crunch;
          try first [exact Hok|exact I]; ok_leaf|]).
      done.
    + unfold dispatch. cbn [fsm]. unfold_handlers; run_handler; unfold raise;
        crunch_loop; first [exact Hok|exact I].
Qed.

(** X18: every session an operator can get into through the handlers of
    admin.py (from a cleared session, whatever happens to the role sets and
    the stored data in between) carries the fields its step relies on: the
    id kept at the name step of the add-approver and add-administrator flows
    is an integer, the new access code kept at the confirmation step has at
    least 4 characters and no surrounding whitespace, the broadcast text
    kept at the confirmation step has at least 5 characters, the group id
    kept after the link step is a non-zero integer (the sub-topic id a
    natural number or None), the names kept have at least 3 characters, the
    document id kept is not empty; and only the primary administrator is
    ever at a step of the flows that add or remove administrators. *)
Theorem reachable_session_ok (from_user : Z) (f : FSMContext) :
  reachable_session ADMIN_ID HELPER_ID from_user f ->
  session_ok ADMIN_ID HELPER_ID from_user f.
Proof.
  induction 1 as [|f r w bot up _ IH].
  - exact I.
  - by apply session_ok_step.
Qed.

(** The same fact under a second name, for use in the proofs below. *)
Lemma reachable_fields (from_user : Z) (f : FSMContext) :
  reachable_session ADMIN_ID HELPER_ID from_user f ->
  session_ok ADMIN_ID HELPER_ID from_user f.
Proof.
  induction 1 as [|f r w bot up _ IH]; [exact I|]. by apply session_ok_step.
Qed.

(** X19: in a session reachable through the handlers of admin.py a text
    message never makes a step handler raise: the conversions of the link
    step cannot fail on what its patterns matched, and the name steps always
    find an integer id in the session. *)
Theorem text_never_raises (bot : Bot) (from_user : Z) (f : FSMContext) (r : Roles)
    (w : W) (t : string) :
  reachable_session ADMIN_ID HELPER_ID from_user f ->
  (dispatch ADMIN_ID HELPER_ID bot from_user (Text (Some t)) (mkCtx f r w)).1.1 = Ok tt.
Proof.
  intros Hok%reachable_fields. unfold dispatch. cbn [fsm].
  destruct f as [[[s|s]|] d]; cbn [fsm_state]; try reflexivity.
  destruct s; cbn [message_handler]; try reflexivity;
    unfold_handlers; run_handler; unfold raise; crunch; try reflexivity;
    exfalso;
    unfold session_ok in Hok; cbn [fsm_state fsm_data] in Hok; unfold data_get in *;
    repeat match goal with
           | H : _ /\ _ |- _ => destruct H
           | H : exists _, _ |- _ => destruct H
           | H : ?d !! ?k = Some _, H' : context [?d !! ?k] |- _ =>
               rewrite H in H'; discriminate H'
           | H : match_channel_topic _ = Some (_, _) |- _ =>
               destruct (match_channel_topic_digits _ _ _ H) as (? & ? & ?); clear H
           | H : match_channel_no_topic _ = Some _ |- _ =>
               apply match_channel_no_topic_digits in H
           | H : match_numeric_id _ = true |- _ =>
               apply match_numeric_id_int in H; destruct H; congruence
           | H : all_chars is_digit ?g = true, H' : py_int ("-100" +:+ ?g) = None |- _ =>
               destruct (py_int_channel g H) as (? & ? & ?); congruence
           | H : all_chars is_digit ?g = true, Hne : ?g <> "", H' : py_int ?g = None |- _ =>
               destruct (py_int_digits g H Hne) as (? & ? & ?); congruence
           end.
Qed.

(** X20: an access code committed through the change-access-code flow (the
    confirmation step announcing success, in a session reached through the
    handlers of admin.py) is the confirmation as typed, stripped; it has at
    least 4 characters and no whitespace around it. *)
Theorem committed_code_well_formed (from_user : Z) (t : string) (f : FSMContext)
    (r : Roles) (w : W) :
  reachable_session ADMIN_ID HELPER_ID from_user f ->
  fsm_state f = Some (Admin waiting_for_password_confirmation) ->
  let run := process_password_confirmation ADMIN_ID from_user (Some t) (mkCtx f r w) in
  run.2 = [Answer (Outcome true)] ->
  let code := get_current_password (world run.1.2) in
  code = strip t /\ 4 <= len code /\ strip code = code.
Proof.
  intros Hok%reachable_fields Hstate run. subst run.
  unfold session_ok in Hok. rewrite Hstate in Hok.
  destruct Hok as (p & Hp & Hlen & Hstrip).
  unfold_handlers; run_handler.
  destruct (negb (is_admin ADMIN_ID r from_user)); [by intros [=]|].
  cbn [fst snd app fsm roles world fsm_state fsm_data].
  unfold data_get. rewrite Hp.
  cbn [default from_option Datatypes.id].
  case_bool_decide as Heq; cbn [negb]; [|by intros [=]].
  injection Heq as <-.
  cbn [fst snd app fsm roles world].
  destruct (update_password (VStr (strip t)) w) as [ok w'] eqn:Hw.
  cbn [fst snd app fsm roles world]. intros [= ->].
  apply update_password_stored in Hw. rewrite Hw. done.
Qed.

Lemma filter_is_send_cons_edit m outs :
  List.filter is_send (EditText m :: outs) = List.filter is_send outs.
Proof. reflexivity. Qed.

(** X21: the broadcast flow run to its end by an administrator: a text of
    at least 5 characters after stripping, then the confirmation, makes the
    loop attempt exactly one delivery per user registered at confirmation
    time, in order, each carrying the stripped text.  A confirmation
    arriving when the session holds no broadcast text delivers nothing,
    answers with an alert and clears the session. *)
Theorem broadcast_flow (bot : Bot) (from_user : Z) (t : string) (c : Ctx W) :
  is_admin ADMIN_ID (roles c) from_user = true ->
  (fsm_state (fsm c) = Some (Admin waiting_for_broadcast_message) ->
   5 <= len (strip t) ->
   let first := dispatch ADMIN_ID HELPER_ID bot from_user (Text (Some t)) c in
   let second := dispatch ADMIN_ID HELPER_ID bot from_user
                   (Choice "confirm_broadcast") first.1.2 in
   List.filter is_send second.2
   = map (fun u => SendMessage (u_telegram_id u) (VStr (strip t)))
         (get_all_users (world c)))
  /\ (truthy (data_get "broadcast_message" (fsm_data (fsm c))) = false ->
      dispatch ADMIN_ID HELPER_ID bot from_user (Choice "confirm_broadcast") c
      = (Ok tt, mkCtx cleared (roles c) (world c), [Alert MessageNotFound])).
Proof.
  intros Hadm. split.
  - intros Hstate Hlen first second.
    assert (Hne : is_empty (strip t) = false).
    { destruct (strip t); [|done]. unfold len in Hlen. simpl in Hlen. lia. }
    assert (Ht : is_empty t = false).
    { destruct t; [|done]. done. }
    assert (Hfirst : first.1.2
              = mkCtx (mkFSM (Some (Admin waiting_for_broadcast_confirmation))
                             (<["broadcast_message" := VStr (strip t)]>
                                (fsm_data (fsm c))))
                      (roles c) (world c)).
    { subst first. unfold dispatch. rewrite Hstate. cbn [message_handler].
      unfold_handlers; run_handler. rewrite Hadm, Ht, Hne. cbn [negb orb].
      assert ((len (strip t) <? 5) = false) as -> by lia. reflexivity. }
    subst second. rewrite Hfirst. clear first Hfirst.
    unfold dispatch. cbn [String.eqb Ascii.eqb Bool.eqb].
    unfold_handlers; run_handler. rewrite Hadm.
    cbn [negb fst snd app fsm roles world fsm_state fsm_data].
    unfold data_get. rewrite lookup_insert_eq.
    cbn [default from_option Datatypes.id truthy]. rewrite Hne. cbn [negb].
    cbn [fst snd app fsm roles world fsm_state fsm_data].
    match goal with
    | |- context [send_loop ?b ?m ?tot ?us ?i ?s ?e ?c0] =>
        destruct (send_loop_spec b m tot us i s e c0) as (outs & Hrun & Hsend & _)
    end.
    cbn zeta in Hrun. rewrite Hrun. unfold raise.
    destruct (_ =? 0); cbn [fst snd app]; rewrite filter_is_send_cons_edit.
    + by rewrite app_nil_r.
    + rewrite List.filter_app. cbn [List.filter is_send]. by rewrite app_nil_r.
  - intros Hfalse. unfold dispatch. cbn [String.eqb Ascii.eqb Bool.eqb].
    unfold_handlers; run_handler. rewrite Hadm. cbn [negb]. rewrite Hfalse.
    reflexivity.
Qed.

End HandlerMore.

(** ** Concrete runs of the further properties

    As before the primary administrator is 1, the primary approver is 2,
    and the collaborators are the in-memory stand-in. *)

(** Witness of X2: 5 is added to and removed from the administrators, 6 to
    and from the approvers. *)
Lemma add_then_remove_witness :
  fst (add_admin 1 5 initial_roles) = true
  /\ remove_admin 5 (snd (add_admin 1 5 initial_roles)) = (true, initial_roles)
  /\ fst (add_approver 1 2 6 initial_roles) = true
  /\ remove_approver 6 (snd (add_approver 1 2 6 initial_roles)) = (true, initial_roles).
Proof.
  destruct (add_then_remove 1 2 initial_roles 5) as [Hadmin _].
  destruct (add_then_remove 1 2 initial_roles 6) as [_ Happrover].
  split; [vm_compute; reflexivity|]. split; [apply Hadmin; vm_compute; reflexivity|].
  split; [vm_compute; reflexivity|]. apply Happrover; vm_compute; reflexivity.
Defined.

(** Witness of X3: adding 5 as an administrator leaves the roles of 7
    alone. *)
Lemma command_frame_witness :
  7 <> op_target (AddAdmin 5)
  /\ is_admin 1 (snd (run_op 1 2 (AddAdmin 5) initial_roles)) 7
     = is_admin 1 initial_roles 7
  /\ is_approver 1 2 (snd (run_op 1 2 (AddAdmin 5) initial_roles)) 7
     = is_approver 1 2 initial_roles 7.
Proof.
  split; [simpl; lia|].
  apply (command_frame 1 2 (AddAdmin 5) initial_roles 7). simpl. lia.
Defined.

(** Witness of X4: 5 was made an administrator and 6 an approver; both are
    removed. *)
Lemma removal_takes_effect_witness :
  let r := run_ops 1 2 [AddAdmin 5; AddApprover 6] initial_roles in
  fst (remove_admin 5 r) = true
  /\ is_admin 1 (snd (remove_admin 5 r)) 5 = false
  /\ fst (remove_approver 6 r) = true
  /\ is_approver 1 2 (snd (remove_approver 6 r)) 6 = is_admin 1 r 6.
Proof.
  cbn zeta.
  destruct (removal_takes_effect 1 2 [AddAdmin 5; AddApprover 6] 5) as (Hadmin & _ & _).
  destruct (removal_takes_effect 1 2 [AddAdmin 5; AddApprover 6] 6) as (_ & Happrover & _).
  split; [vm_compute; reflexivity|]. split; [apply Hadmin; vm_compute; reflexivity|].
  split; [vm_compute; reflexivity|]. apply Happrover; vm_compute; reflexivity.
Defined.

(** Witness of X5: the additional administrator 5 can approve reports. *)
Lemma can_approve_reports_spec_witness :
  let r := run_ops 1 2 [AddAdmin 5] initial_roles in
  is_admin 1 r 5 = true /\ can_approve_reports 1 2 r 5 = true.
Proof.
  cbn zeta. split; [vm_compute; reflexivity|].
  apply (can_approve_reports_spec 1 2 (run_ops 1 2 [AddAdmin 5] initial_roles) 5).
  vm_compute. reflexivity.
Defined.

(** Witness of X6: the additional administrator 5 is listed. *)
Lemma get_all_admins_spec_witness :
  let r := run_ops 1 2 [AddAdmin 5] initial_roles in
  is_admin 1 r 5 = true /\ 5 ∈ get_all_admins 1 r.
Proof.
  cbn zeta. split; [vm_compute; reflexivity|].
  apply (get_all_admins_spec 1 2 [AddAdmin 5] 5). vm_compute. reflexivity.
Defined.

(** Witness of X7: the additional approver 6 is listed, and is an
    approver. *)
Lemma get_all_approvers_spec_witness :
  let r := run_ops 1 2 [AddApprover 6] initial_roles in
  6 ∈ get_all_approvers 2 r /\ is_approver 1 2 r 6 = true.
Proof.
  cbn zeta.
  assert (Hin : 6 ∈ get_all_approvers 2 (run_ops 1 2 [AddApprover 6] initial_roles)).
  { vm_compute. repeat constructor. }
  split; [exact Hin|].
  apply (get_all_approvers_spec 1 2 [AddApprover 6] 6). exact Hin.
Defined.

(** Witness of X8: seven workers give a full row of five numbered buttons
    and a row of two. *)
Lemma workers_keyboard_layout_witness :
  let workers := take 7 ten_recipients in
  let numbered := number_buttons workers 1 in
  let rows := rows_of (length numbered) 5 numbered in
  rows !! 0%nat = Some (take 5 numbered)
  /\ (1 < length rows)%nat
  /\ length (take 5 numbered) = 5%nat.
Proof.
  cbn zeta. split; [vm_compute; reflexivity|]. split; [vm_compute; lia|].
  apply (workers_keyboard_layout (take 7 ten_recipients) 1 1 0
           (take 5 (number_buttons (take 7 ten_recipients) 1))).
  - vm_compute. reflexivity.
  - vm_compute. lia.
Defined.

(** Witness of X9: the second of ten workers, whose Telegram id is 102. *)
Lemma worker_button_round_trip_witness :
  ten_recipients !! 1%nat = Some (recipient 102)
  /\ exists b,
       number_buttons ten_recipients 1 !! 1%nat = Some b
       /\ b ∈ concat (get_workers_list_keyboard_with_pagination ten_recipients 1 1)
       /\ b_text b = NumberLabel (Z.of_nat 1 + 1)
       /\ String.prefix "worker_select_" (b_callback_data b) = true
       /\ callback_last_int (b_callback_data b) = Some (u_telegram_id (recipient 102)).
Proof.
  split; [reflexivity|].
  apply (worker_button_round_trip ten_recipients 1 1 1 (recipient 102)). reflexivity.
Defined.

(** Witness of X10: the "previous" button of page 2 of 3 leads to page 1. *)
Lemma page_buttons_in_range_witness :
  let b := mkButton PreviousLabel "workers_page_1" in
  1 <= 2 <= 3
  /\ b ∈ pagination_buttons 2 3
  /\ (b_callback_data b = "current_page"
      \/ (String.prefix "workers_page_" (b_callback_data b) = true
          /\ exists p, callback_last_int (b_callback_data b) = Some p
                       /\ (p = 2 - 1 \/ p = 2 + 1)
                       /\ 1 <= p <= 3)).
Proof.
  cbn zeta.
  assert (Hin : mkButton PreviousLabel "workers_page_1" ∈ pagination_buttons 2 3).
  { vm_compute. repeat constructor. }
  split; [lia|]. split; [exact Hin|].
  apply (page_buttons_in_range 2 3 (mkButton PreviousLabel "workers_page_1"));
    [lia|exact Hin].
Defined.

(** Witness of X11: a text without whitespace is its own first name. *)
Lemma extract_first_name_spec_witness :
  all_chars (fun c => negb (is_space c)) "Ali" = true
  /\ extract_first_name "Ali" = "Ali".
Proof.
  split; [vm_compute; reflexivity|].
  destruct (extract_first_name_spec "Ali") as (_ & _ & _ & Hwhole & _).
  apply Hwhole. vm_compute. reflexivity.
Defined.

(** Witness of X12: the primary administrator sends a photo at the
    new-access-code step. *)
Lemma message_without_text_witness :
  let c := at_step waiting_for_new_password initial_roles in
  message_handler 1 2 waiting_for_new_password = Some (process_new_password 1)
  /\ has_required_role 1 waiting_for_new_password (roles c) 1 = true
  /\ process_new_password 1 1 None c = (Raise AttributeError, c, []).
Proof.
  cbn zeta. split; [reflexivity|]. split; [vm_compute; reflexivity|].
  apply (message_without_text 1 2 waiting_for_new_password (process_new_password 1) 1
           (at_step waiting_for_new_password initial_roles)).
  - reflexivity.
  - vm_compute. reflexivity.
Defined.

(** Witness of X13: user 7, who holds no role, presses the button that opens
    the add-administrator flow. *)
Lemma start_gate_witness :
  let c : Ctx Memory := mkCtx cleared initial_roles empty_memory in
  start_handler 1 "admin_add" = Some (add_admin_start 1)
  /\ (7 =? 1) = false
  /\ (exists m, add_admin_start 1 7 c = (Ok tt, c, [Alert m]))
  /\ "admin_add" <> "admin_menu"
  /\ fsm_data (fsm (add_admin_start 1 7 c).1.2) = fsm_data (fsm c).
Proof.
  cbn zeta.
  destruct (start_gate 1 "admin_add" (add_admin_start 1) 7
              (mkCtx cleared initial_roles empty_memory) eq_refl)
    as (Hdenied & _ & _ & _ & Hdata).
  split; [reflexivity|]. split; [reflexivity|].
  split; [apply Hdenied; reflexivity|]. split; [discriminate|].
  apply Hdata. discriminate.
Defined.

(** Witness of X14: the primary administrator removes the additional
    administrator 5; success is announced, failure is not. *)
Lemma removal_never_fails_witness :
  let c := at_step waiting_for_admin_delete_confirmation
             (run_ops 1 2 [AddAdmin 5] initial_roles) in
  (Answer (Outcome true) ∈ (process_admin_delete 1 1 (Some "5") c).2)
  /\ (Answer (Outcome false) ∉ (process_admin_delete 1 1 (Some "5") c).2).
Proof.
  cbn zeta. split; [vm_compute; repeat constructor|].
  exact (proj1 (removal_never_fails 1 2 1 (Some "5")
                  (at_step waiting_for_admin_delete_confirmation
                     (run_ops 1 2 [AddAdmin 5] initial_roles)))).
Defined.

(** Witness of X15: a link to a spreadsheet, followed by /edit. *)
Lemma sheet_url_step_witness :
  let c := at_step waiting_for_google_sheet_url initial_roles in
  let t := "https://docs.google.com/spreadsheets/d/Ab_c-9/edit" in
  is_admin 1 (roles c) 1 = true
  /\ strip t = "https://docs.google.com/spreadsheets/d/" +:+ "Ab_c-9" +:+ "/edit"
  /\ all_chars is_id_char "Ab_c-9" = true
  /\ is_id_char "/" = false
  /\ process_google_sheet_url 1 1 (Some t) c = sheet_url_accepted c "Ab_c-9".
Proof.
  cbn zeta.
  destruct (sheet_url_step 1 1 "https://docs.google.com/spreadsheets/d/Ab_c-9/edit"
              (at_step waiting_for_google_sheet_url initial_roles)) as (Hurl & _).
  { vm_compute. reflexivity. }
  split; [vm_compute; reflexivity|]. split; [vm_compute; reflexivity|].
  split; [vm_compute; reflexivity|]. split; [vm_compute; reflexivity|].
  apply (Hurl "Ab_c-9" "/edit").
  - vm_compute. reflexivity.
  - vm_compute. reflexivity.
  - discriminate.
  - right. exists "/"%char, "edit". split; [reflexivity|vm_compute; reflexivity].
Defined.

(** Witness of X16: the primary administrator makes 5 an approver named
    Bob. *)
Lemma add_approver_flow_witness :
  let c := at_step waiting_for_new_approver_id initial_roles in
  let first := dispatch 1 2 quiet_bot 1 (Text (Some "5")) c in
  fsm_state (fsm c) = Some (Admin waiting_for_new_approver_id)
  /\ is_admin 1 (roles c) 1 = true
  /\ first.2 = [Answer (Prompt waiting_for_approver_name)]
  /\ 2 <= len (strip "Bob")
  /\ exists id,
       py_int (strip "5") = Some id
       /\ is_approver 1 2 (roles c) id = false
       /\ dispatch 1 2 quiet_bot 1 (Text (Some "Bob")) first.1.2
          = (Ok tt,
             mkCtx cleared
                   (mkRoles (ADDITIONAL_ADMINS (roles c)) ({[id]} ∪ APPROVERS (roles c)))
                   (world c),
             [Answer (Outcome true); Answer Listing])
       /\ is_admin 1
            (mkRoles (ADDITIONAL_ADMINS (roles c)) ({[id]} ∪ APPROVERS (roles c))) id
          = false.
Proof.
  cbn zeta. split; [reflexivity|]. split; [vm_compute; reflexivity|].
  split; [vm_compute; reflexivity|]. split; [vm_compute; discriminate|].
  apply (add_approver_flow 1 2 quiet_bot 1 "5" "Bob"
           (at_step waiting_for_new_approver_id initial_roles)).
  - reflexivity.
  - vm_compute. reflexivity.
  - vm_compute. reflexivity.
  - vm_compute. discriminate.
Defined.

(** Witness of X17: the primary administrator makes 5 an administrator named
    Bob. *)
Lemma add_admin_flow_witness :
  let c := at_step waiting_for_new_admin_id initial_roles in
  let first := dispatch 1 2 quiet_bot 1 (Text (Some "5")) c in
  fsm_state (fsm c) = Some (Admin waiting_for_new_admin_id)
  /\ first.2 = [Answer (Prompt waiting_for_admin_name)]
  /\ 2 <= len (strip "Bob")
  /\ exists id,
       py_int (strip "5") = Some id
       /\ is_admin 1 (roles c) id = false
       /\ dispatch 1 2 quiet_bot 1 (Text (Some "Bob")) first.1.2
          = (Ok tt,
             mkCtx cleared
                   (mkRoles ({[id]} ∪ ADDITIONAL_ADMINS (roles c)) (APPROVERS (roles c)))
                   (world c),
             [Answer (Outcome true); Answer Listing]).
Proof.
  cbn zeta. split; [reflexivity|]. split; [vm_compute; reflexivity|].
  split; [vm_compute; discriminate|].
  apply (add_admin_flow 1 2 quiet_bot "5" "Bob"
           (at_step waiting_for_new_admin_id initial_roles)).
  - reflexivity.
  - vm_compute. reflexivity.
  - vm_compute. discriminate.
Defined.

(** The session of the primary administrator after the button that opens
    the change-access-code flow and the text 2025. *)
Definition code_proposed : FSMContext :=
  let opened :=
    fsm (admin_router 1 2 quiet_bot 1 (Incoming (Choice "change_password_start"))
           (mkCtx cleared initial_roles empty_memory)).1.2 in
  fsm (admin_router 1 2 quiet_bot 1 (Incoming (Text (Some "2025")))
         (mkCtx opened initial_roles empty_memory)).1.2.

Lemma code_proposed_reachable : reachable_session (W:=Memory) 1 2 1 code_proposed.
Proof. unfold code_proposed. apply reach_update, reach_update, reach_cleared. Qed.

(** The session of the primary administrator after the button that opens
    the add-work-group flow. *)
Definition group_flow_opened : FSMContext :=
  fsm (admin_router 1 2 quiet_bot 1 (Incoming (Choice "group_add"))
         (mkCtx cleared initial_roles empty_memory)).1.2.

Lemma group_flow_opened_reachable :
  reachable_session (W:=Memory) 1 2 1 group_flow_opened.
Proof. unfold group_flow_opened. apply reach_update, reach_cleared. Qed.

(** Witness of X18: the session holding the proposed access code. *)
Lemma reachable_session_ok_witness :
  fsm_state code_proposed = Some (Admin waiting_for_password_confirmation)
  /\ reachable_session (W:=Memory) 1 2 1 code_proposed
  /\ session_ok 1 2 1 code_proposed.
Proof.
  split; [vm_compute; reflexivity|]. split; [exact code_proposed_reachable|].
  apply (reachable_session_ok (W:=Memory) 1 2 1 code_proposed).
  exact code_proposed_reachable.
Defined.

(** Witness of X19: a link with a sub-topic at the link step. *)
Lemma text_never_raises_witness :
  fsm_state group_flow_opened = Some (Admin waiting_for_group_link)
  /\ reachable_session (W:=Memory) 1 2 1 group_flow_opened
  /\ (dispatch 1 2 quiet_bot 1 (Text (Some "https://t.me/c/1234567890/123"))
        (mkCtx group_flow_opened initial_roles empty_memory)).1.1 = Ok tt.
Proof.
  split; [vm_compute; reflexivity|]. split; [exact group_flow_opened_reachable|].
  apply (text_never_raises 1 2 quiet_bot 1 group_flow_opened initial_roles empty_memory
           "https://t.me/c/1234567890/123").
  exact group_flow_opened_reachable.
Defined.

(** Witness of X20: the proposed access code is confirmed, with a space
    typed after it. *)
Lemma committed_code_well_formed_witness :
  let run := process_password_confirmation 1 1 (Some "2025 ")
               (mkCtx code_proposed initial_roles empty_memory) in
  reachable_session (W:=Memory) 1 2 1 code_proposed
  /\ fsm_state code_proposed = Some (Admin waiting_for_password_confirmation)
  /\ run.2 = [Answer (Outcome true)]
  /\ get_current_password (world run.1.2) = strip "2025 "
  /\ 4 <= len (get_current_password (world run.1.2))
  /\ strip (get_current_password (world run.1.2)) = get_current_password (world run.1.2).
Proof.
  cbn zeta. split; [exact code_proposed_reachable|].
  split; [vm_compute; reflexivity|]. split; [vm_compute; reflexivity|].
  apply (committed_code_well_formed 1 2 1 "2025 " code_proposed initial_roles
           empty_memory).
  - exact code_proposed_reachable.
  - vm_compute. reflexivity.
  - vm_compute. reflexivity.
Defined.

(** Witness of X21: the primary administrator broadcasts a text to ten
    recipients; and a confirmation without a text in the session. *)
Lemma broadcast_flow_witness :
  let c := mkCtx (mkFSM (Some (Admin waiting_for_broadcast_message)) ∅)
                 initial_roles (mkMemory "2024" ten_recipients [] []) in
  let first := dispatch 1 2 quiet_bot 1 (Text (Some " hello all ")) c in
  let second := dispatch 1 2 quiet_bot 1 (Choice "confirm_broadcast") first.1.2 in
  is_admin 1 (roles c) 1 = true
  /\ 5 <= len (strip " hello all ")
  /\ List.filter is_send second.2
     = map (fun u => SendMessage (u_telegram_id u) (VStr (strip " hello all ")))
           (get_all_users (world c))
  /\ truthy (data_get "broadcast_message" (fsm_data (fsm c))) = false
  /\ dispatch 1 2 quiet_bot 1 (Choice "confirm_broadcast") c
     = (Ok tt, mkCtx cleared (roles c) (world c), [Alert MessageNotFound]).
Proof.
  cbn zeta.
  destruct (broadcast_flow 1 2 quiet_bot 1 " hello all "
              (mkCtx (mkFSM (Some (Admin waiting_for_broadcast_message)) ∅)
                     initial_roles (mkMemory "2024" ten_recipients [] [])))
    as (Hsent & Hnone).
  { vm_compute. reflexivity. }
  split; [vm_compute; reflexivity|]. split; [vm_compute; discriminate|].
  split; [apply Hsent; [reflexivity|vm_compute; discriminate]|].
  split; [vm_compute; reflexivity|]. apply Hnone. vm_compute. reflexivity.
Defined.
